(** * ml-serving-tool: model discovery, materialisation and the HTTP front door

    A shallow embedding of [src/api/github_client.py] and
    [src/api/rest_api.py].  Python values are modelled as the code has
    them: [str] as [string], a [dict] as an insertion-ordered association
    list ([PyDict]), exceptions as a result type, the local disk as a
    finite map from path strings to nodes, and the collaborators that live
    outside the two files (GitHub, the broker, the lifecycle manager, the
    container runtime) as variables of the section that uses them. *)

From stdpp Require Import gmap strings list fin_maps sorting.
From Stdlib Require Import ZArith Lia Ascii String.

Local Open Scope string_scope.
Local Open Scope Z_scope.

(** ** Python strings *)

Module PyStr.

(** [s[:n]] *)
Fixpoint take (n : nat) (s : string) : string :=
  match n, s with
  | S n', String a s' => String a (take n' s')
  | _, _ => EmptyString
  end.

(** [s[n:]] *)
Fixpoint drop (n : nat) (s : string) : string :=
  match n, s with
  | S n', String _ s' => drop n' s'
  | _, _ => s
  end.

(** [s[i:j]] for non-negative indices. *)
Definition slice (i j : Z) (s : string) : string :=
  take (Z.to_nat (j - i)) (drop (Z.to_nat i) s).

Fixpoint rfind_from (s : string) (c : ascii) (i last : Z) : Z :=
  match s with
  | EmptyString => last
  | String a s' => rfind_from s' c (i + 1) (if Ascii.eqb a c then i else last)
  end.

(** [s.rfind(c)]: the highest index of [c] in [s], or [-1]. *)
Definition rfind (s : string) (c : ascii) : Z := rfind_from s c 0 (-1).

(** [s.startswith(c)] and [s.endswith(c)] for a one-character [c]. *)
Definition startswith (s : string) (c : ascii) : bool :=
  match s with
  | String a _ => Ascii.eqb a c
  | EmptyString => false
  end.

Fixpoint endswith (s : string) (c : ascii) : bool :=
  match s with
  | EmptyString => false
  | String a EmptyString => Ascii.eqb a c
  | String _ s' => endswith s' c
  end.

(** [s.rstrip(c)] *)
Fixpoint rstrip (s : string) (c : ascii) : string :=
  match s with
  | EmptyString => EmptyString
  | String a s' =>
      match rstrip s' c with
      | EmptyString => if Ascii.eqb a c then EmptyString else String a EmptyString
      | r => String a r
      end
  end.

(** [s == c * len(s)] *)
Fixpoint all_eq (s : string) (c : ascii) : bool :=
  match s with
  | EmptyString => true
  | String a s' => Ascii.eqb a c && all_eq s' c
  end.

Definition nonempty (s : string) : bool :=
  match s with EmptyString => false | _ => true end.

(** [s.lower()] on the letters A to Z. *)
Definition lower_ascii (a : ascii) : ascii :=
  let n := nat_of_ascii a in
  if (65 <=? n)%nat && (n <=? 90)%nat then ascii_of_nat (n + 32) else a.

Fixpoint lower (s : string) : string :=
  match s with
  | EmptyString => EmptyString
  | String a s' => String (lower_ascii a) (lower s')
  end.

End PyStr.

(** ** [os.path] (posixpath) *)

Module os_path.

Definition sep : ascii := "/"%char.
Definition extsep : ascii := "."%char.

(** [genericpath._splitext]: the [while filenameIndex < dotIndex] loop that
    skips leading dots; [n] bounds the number of iterations. *)
Fixpoint _splitext_loop (n : nat) (p : string) (filenameIndex dotIndex : Z)
  : string * string :=
  match n with
  | O => (p, EmptyString)
  | S n' =>
      if filenameIndex <? dotIndex then
        if negb (String.eqb (PyStr.slice filenameIndex (filenameIndex + 1) p)
                            (String extsep EmptyString))
        then (PyStr.take (Z.to_nat dotIndex) p, PyStr.drop (Z.to_nat dotIndex) p)
        else _splitext_loop n' p (filenameIndex + 1) dotIndex
      else (p, EmptyString)
  end.

Definition splitext (p : string) : string * string :=
  let sepIndex := PyStr.rfind p sep in
  let dotIndex := PyStr.rfind p extsep in
  if dotIndex >? sepIndex
  then _splitext_loop (S (String.length p)) p (sepIndex + 1) dotIndex
  else (p, EmptyString).

(** [os.path.join(a, b)] *)
Definition join (a b : string) : string :=
  if PyStr.startswith b sep then b
  else if negb (PyStr.nonempty a) || PyStr.endswith a sep then a ++ b
  else a ++ String sep b.

(** [os.path.split(p)] *)
Definition split (p : string) : string * string :=
  let i := Z.to_nat (PyStr.rfind p sep + 1) in
  let head := PyStr.take i p in
  let tail := PyStr.drop i p in
  let head :=
    if PyStr.nonempty head && negb (PyStr.all_eq head sep)
    then PyStr.rstrip head sep else head in
  (head, tail).

Definition basename (p : string) : string :=
  PyStr.drop (Z.to_nat (PyStr.rfind p sep + 1)) p.

Definition dirname (p : string) : string := fst (split p).

End os_path.

(** ** Exceptions

    Every exception the two files can meet is a subclass of [Exception];
    the class is kept because [os.makedirs] and the handlers select on it. *)

Inductive exn_class :=
  | HTTPError | RuntimeError | TypeError | KeyError | AttributeError
  | FileExistsError | FileNotFoundError | NotADirectoryError | IsADirectoryError
  | RecursionError | BadRequest | OtherException.

Record exn := Exn { exn_cls : exn_class; exn_str : string }.

(** [isinstance(e, OSError)] *)
Definition is_OSError (e : exn) : bool :=
  match exn_cls e with
  | FileExistsError | FileNotFoundError | NotADirectoryError | IsADirectoryError => true
  | _ => false
  end.

Definition is_FileExistsError (e : exn) : bool :=
  match exn_cls e with FileExistsError => true | _ => false end.

Inductive pyresult (A : Type) :=
  | Ok (a : A)
  | Raise (e : exn).
Arguments Ok {A} a.
Arguments Raise {A} e.

Global Instance pyresult_ret : MRet pyresult := fun A a => Ok a.
Global Instance pyresult_bind : MBind pyresult := fun A B f m =>
  match m with
  | Ok a => f a
  | Raise e => Raise e
  end.

(** ** Python dictionaries

    A [dict] keeps its keys in insertion order; [d[k] = v] on a key that is
    already present replaces the value in place, otherwise it appends. *)

Module PyDict.
Section dict.
Context {V : Type}.

Definition t := list (string * V).

Definition empty : t := [].

(** [d.get(k)] *)
Fixpoint get (k : string) (d : t) : option V :=
  match d with
  | [] => None
  | (k', v) :: d' => if String.eqb k k' then Some v else get k d'
  end.

(** [d[k] = v] *)
Fixpoint set (k : string) (v : V) (d : t) : t :=
  match d with
  | [] => [(k, v)]
  | (k', v') :: d' =>
      if String.eqb k k' then (k', v) :: d' else (k', v') :: set k v d'
  end.

(** [d[k]] *)
Definition getitem (k : string) (d : t) : pyresult V :=
  match get k d with
  | Some v => Ok v
  | None => Raise (Exn KeyError k)
  end.

(** [k in d] *)
Definition contains (k : string) (d : t) : bool :=
  match get k d with Some _ => true | None => false end.

(** [list(d.keys())], [list(d.items())], [len(d)] *)
Definition keys (d : t) : list string := d.*1.
Definition items (d : t) : list (string * V) := d.
Definition len (d : t) : nat := List.length d.
End dict.
Arguments t : clear implicits.
End PyDict.

(** ** Configuration (module-level constants read from the environment) *)

Record config := {
  GITHUB_REPO : string;
  GITHUB_BRANCH : string;          (* os.getenv("GITHUB_BRANCH", "main") *)
  MODEL_SOURCE : string;           (* os.getenv("MODEL_SOURCE", "local_filesystem") *)
  MODELS_PATH : string;            (* os.getenv("MODELS_PATH", "/models") *)
  INPUT_DATA_SOURCE : string;      (* os.getenv("INPUT_DATA_SOURCE", "kafka") *)
  PREDICTION_DESTINATION : string  (* os.getenv("PREDICTION_DESTINATION", "kafka") *)
}.

Definition MODELS_ROOT : string := "models".

(** ** GitHub Contents API *)

(** One entry of a Contents API answer. *)
Record item := {
  item_name : string;
  item_type : string;
  item_download_url : string
}.

(** [r.json()]: a dict for a single file, a list for a directory. *)
Inductive contents :=
  | JsonDict (it : item)
  | JsonList (its : list item).

(** The remote side: [requests.get(...)] followed by [raise_for_status()],
    for the Contents API (by [ref] and repository path) and for raw
    downloads (by URL). *)
Record github := {
  gh_contents : string -> string -> pyresult contents;
  gh_download : string -> pyresult string
}.

(** [dict] of string fields: a registry descriptor *)
Abbreviation metadata := (PyDict.t string).

(** ** The local disk

    Paths are the strings the code builds; a node is a regular file with
    its bytes or a directory.  The root always exists.  A node is stored
    under its path without trailing separators, and a path that ends in
    separators is resolved to that node; doubled separators and the
    components [.] and [..] inside a path are not resolved. *)

Inductive node :=
  | File (content : string)
  | Dir.

Abbreviation filesystem := (gmap string node).

(** Code that touches the disk: the disk is threaded through, and it keeps
    whatever was done before an exception was raised. *)
Definition IO (A : Type) : Type := filesystem -> pyresult A * filesystem.

Global Instance IO_ret : MRet IO := fun A a fs => (Ok a, fs).
Global Instance IO_bind : MBind IO := fun A B f m fs =>
  match m fs with
  | (Ok a, fs') => f a fs'
  | (Raise e, fs') => (Raise e, fs')
  end.

Definition raise {A} (e : exn) : IO A := fun fs => (Raise e, fs).
Definition lift {A} (r : pyresult A) : IO A := fun fs => (r, fs).

(** [try: m except <sel>: h] *)
Definition try_except {A} (m : IO A) (sel : exn -> bool) (h : exn -> IO A) : IO A :=
  fun fs =>
    match m fs with
    | (Ok a, fs') => (Ok a, fs')
    | (Raise e, fs') => if sel e then h e fs' else (Raise e, fs')
    end.

Module os.

Definition is_root (p : string) : bool :=
  PyStr.nonempty p && PyStr.all_eq p os_path.sep.

(** What [p] names on the disk.  A path that ends in separators names the
    directory stored under the path without them, and nothing when that
    is a regular file. *)
Definition stat (fs : filesystem) (p : string) : option node :=
  match fs !! p with
  | Some n => Some n
  | None =>
      if PyStr.endswith p os_path.sep then
        match fs !! PyStr.rstrip p os_path.sep with
        | Some Dir => Some Dir
        | _ => None
        end
      else None
  end.

(** [os.path.exists(p)] and [os.path.isdir(p)] *)
Definition exists_ (fs : filesystem) (p : string) : bool :=
  is_root p || match stat fs p with Some _ => true | None => false end.

Definition isdir (fs : filesystem) (p : string) : bool :=
  is_root p || match stat fs p with Some Dir => true | _ => false end.

(** [p] is [d] itself or lies below it. *)
Definition at_or_under (d p : string) : bool :=
  String.eqb p d || String.prefix (d ++ "/") p.

(** The parent of [p] must be a directory before [p] can be created; an
    empty parent is the current directory. *)
Definition check_parent (fs : filesystem) (p : string) : pyresult unit :=
  let parent := os_path.dirname p in
  if negb (PyStr.nonempty parent) || is_root parent then Ok tt
  else match fs !! parent with
       | Some Dir => Ok tt
       | Some (File _) => Raise (Exn NotADirectoryError p)
       | None => Raise (Exn FileNotFoundError p)
       end.

(** [os.mkdir(name)]: the directory is stored under [name] without its
    trailing separators. *)
Definition mkdir (name : string) : IO unit := fun fs =>
  let key := PyStr.rstrip name os_path.sep in
  if negb (PyStr.nonempty name) then (Raise (Exn FileNotFoundError name), fs)
  else if is_root name then (Raise (Exn FileExistsError name), fs)
  else match fs !! name, fs !! key with
       | None, None =>
           match check_parent fs key with
           | Ok _ => (Ok tt, <[key := Dir]> fs)
           | Raise e => (Raise (Exn (exn_cls e) name), fs)
           end
       | _, _ => (Raise (Exn FileExistsError name), fs)
       end.

(** [os.makedirs(name, exist_ok=True)]; [n] is the recursion depth left. *)
Fixpoint makedirs_rec (n : nat) (name : string) : IO unit :=
  match n with
  | O => raise (Exn RecursionError name)
  | S n' => fun fs =>
      let '(head, tail) := os_path.split name in
      let '(head, tail) :=
        if negb (PyStr.nonempty tail) then os_path.split head else (head, tail) in
      let parents : IO bool :=
        if PyStr.nonempty head && PyStr.nonempty tail && negb (exists_ fs head) then
          _ ← try_except (makedirs_rec n' head) is_FileExistsError (fun _ => mret tt);
          mret (String.eqb tail ".")
        else mret false in
      (stop ← parents;
       if stop : bool then mret tt
       else try_except (mkdir name) is_OSError
              (fun e fs' => if isdir fs' name then (Ok tt, fs') else (Raise e, fs'))) fs
  end.

Definition makedirs (name : string) : IO unit :=
  makedirs_rec (S (String.length name)) name.

(** [with open(p, "wb") as f: f.write(content)]; a path that ends in a
    separator cannot be opened for writing. *)
Definition write_file (p content : string) : IO unit := fun fs =>
  match fs !! p with
  | Some Dir => (Raise (Exn IsADirectoryError p), fs)
  | _ => if negb (PyStr.nonempty p) then (Raise (Exn FileNotFoundError p), fs)
         else if PyStr.endswith p os_path.sep then
           match fs !! PyStr.rstrip p os_path.sep with
           | Some (File _) => (Raise (Exn NotADirectoryError p), fs)
           | _ => (Raise (Exn IsADirectoryError p), fs)
           end
         else match check_parent fs p with
              | Ok _ => (Ok tt, <[p := File content]> fs)
              | Raise e => (Raise e, fs)
              end
  end.

(** [os.getenv(name)] and [os.getenv(name, default)] on the process
    environment. *)
Definition getenv (environ : PyDict.t string) (name : string) : option string :=
  PyDict.get name environ.

Definition getenv_default (environ : PyDict.t string) (name default : string) : string :=
  match PyDict.get name environ with
  | Some v => v
  | None => default
  end.

End os.

Module shutil.

(** [shutil.rmtree(p)]: removes the directory [p] names and everything
    below it; raises when [p] is missing or is not a directory.  The root
    itself cannot be removed: there the call raises an [OSError] after
    removing what it could, taken here to be every node. *)
Definition rmtree (p : string) : IO unit := fun fs =>
  match fs !! p with
  | Some Dir => (Ok tt, filter (fun kv => os.at_or_under p kv.1 = false) fs)
  | Some (File _) => (Raise (Exn NotADirectoryError p), fs)
  | None =>
      if os.is_root p then (Raise (Exn OtherException p), ∅)
      else
        let key := PyStr.rstrip p os_path.sep in
        match fs !! key with
        | Some Dir => (Ok tt, filter (fun kv => os.at_or_under key kv.1 = false) fs)
        | Some (File _) => (Raise (Exn NotADirectoryError p), fs)
        | None => (Raise (Exn FileNotFoundError p), fs)
        end
  end.

End shutil.

Module github_client.
Section client.
Variable cfg : config.
Variable gh : github.

Definition list_repo_root : pyresult contents :=
  gh_contents gh (GITHUB_BRANCH cfg) MODELS_ROOT.

Definition github_api_get (path : string) : pyresult contents :=
  gh_contents gh (GITHUB_BRANCH cfg) path.

(** The dict literal [list_github_models] stores for [it] under
    [model_name] (the same in both branches). *)
Definition github_descriptor (model_name : string) (it : item) : metadata :=
  [("source", "github"); ("model_name", model_name);
   ("type", item_type it); ("model_path", MODELS_ROOT ++ "/" ++ item_name it)].

(** The body of [for item in items] in [list_github_models]. *)
Definition list_github_models_body (models : PyDict.t metadata) (it : item)
  : PyDict.t metadata :=
  let name := item_name it in
  (* Case 1: single files *)
  if String.eqb (item_type it) "file" then
    let model_name := fst (os_path.splitext name) in
    PyDict.set model_name (github_descriptor model_name it) models
  (* Case 2: folder-based model *)
  else if String.eqb (item_type it) "dir" then
    let model_name := name in
    PyDict.set model_name (github_descriptor model_name it) models
  else models.

(** Iterating a dict answer yields its keys, and [item["name"]] on a
    [str] raises [TypeError]. *)
Definition list_github_models : pyresult (PyDict.t metadata) :=
  items ← list_repo_root;
  match items with
  | JsonList its => Ok (fold_left list_github_models_body its PyDict.empty)
  | JsonDict _ => Raise (Exn TypeError "string indices must be integers")
  end.

(** Download a single file using its GitHub download_url. *)
Definition download_file (download_url local_path : string) : IO unit :=
  content ← lift (gh_download gh download_url);
  _ ← os.makedirs (os_path.dirname local_path);
  os.write_file local_path content.

(** [for item in items: body(item)] *)
Fixpoint for_items (body : item -> IO unit) (its : list item) : IO unit :=
  match its with
  | [] => mret tt
  | it :: rest => _ ← body it; for_items body rest
  end.

(** The body of the loop of [download_folder]; [recurse] is the
    recursive call. *)
Definition download_folder_body (recurse : string -> string -> IO unit)
    (repo_path local_path : string) (it : item) : IO unit :=
  if String.eqb (item_type it) "file" then
    let file_path := os_path.join local_path (item_name it) in
    download_file (item_download_url it) file_path
  else if String.eqb (item_type it) "dir" then
    let sub_repo_path := repo_path ++ "/" ++ item_name it in
    let sub_local_path := os_path.join local_path (item_name it) in
    recurse sub_repo_path sub_local_path
  else
    raise (Exn RuntimeError ("Unknown GitHub item type: " ++ item_type it)).

(** Recursively download a GitHub folder.  [depth] is the interpreter's
    remaining recursion depth: exhausting it raises [RecursionError]. *)
Fixpoint download_folder (depth : nat) (repo_path local_path : string) : IO unit :=
  match depth with
  | O => raise (Exn RecursionError repo_path)
  | S depth' =>
      items ← lift (github_api_get repo_path);
      _ ← os.makedirs local_path;
      match items with
      | JsonDict _ => raise (Exn TypeError "string indices must be integers")
      | JsonList its =>
          for_items (download_folder_body (download_folder depth')
                       repo_path local_path) its
      end
  end.

(** Download a model from GitHub into /models/<model_name>.
    Can be a single file or a folder. *)
Definition download_github_model (depth : nat) (model_entry : metadata) : IO string :=
  repo_path ← lift (PyDict.getitem "model_path" model_entry);
  info ← lift (github_api_get repo_path);
  match info with
  | JsonDict it =>
      if String.eqb (item_type it) "file" then
        (* Single file *)
        let dest_file := os_path.join "/models" (os_path.basename repo_path) in
        _ ← download_file (item_download_url it) dest_file;
        mret dest_file
      else
        (* other (unsupported) format *)
        raise (Exn RuntimeError
                 ("Unsupported GitHub model type for path: " ++ repo_path))
  | JsonList _ =>
      (* Directory *)
      model_name ← lift (PyDict.getitem "model_name" model_entry);
      let dest_dir := os_path.join "/models" model_name in
      _ ← (fun fs => if os.exists_ fs dest_dir
                     then shutil.rmtree dest_dir fs else (Ok tt, fs));
      _ ← download_folder depth repo_path dest_dir;
      mret dest_dir
  end.
End client.

(** The constants the module binds when it is imported. *)
Record module_constants := {
  mc_GITHUB_REPO : string;
  mc_GITHUB_BRANCH : string;
  mc_GITHUB_TOKEN : option string;
  mc_MODELS_ROOT : string;
  mc_MODELS_PATH : option string;
  mc_HEADERS : PyDict.t string;
  mc_TIMEOUT : Z
}.

(** Truthiness of [os.getenv(name)]: set and not empty. *)
Definition env_truthy (v : option string) : bool :=
  match v with
  | Some s => PyStr.nonempty s
  | None => false
  end.

(** The module-level statements of [github_client.py], run at import
    with the process environment [environ]. *)
Definition import_module (environ : PyDict.t string) : pyresult module_constants :=
  let GITHUB_REPO := os.getenv environ "GITHUB_REPO" in
  let GITHUB_BRANCH := os.getenv_default environ "GITHUB_BRANCH" "main" in
  let GITHUB_TOKEN := os.getenv environ "GITHUB_TOKEN" in
  let MODELS_PATH := os.getenv environ "MODELS_PATH" in
  if negb (env_truthy GITHUB_REPO) then
    Raise (Exn RuntimeError "GITHUB_REPO is not set")
  else
    let HEADERS := [("Accept", "application/vnd.github+json")] in
    let HEADERS :=
      if env_truthy GITHUB_TOKEN
      then PyDict.set "Authorization" ("token " ++ default "" GITHUB_TOKEN) HEADERS
      else HEADERS in
    Ok {| mc_GITHUB_REPO := default "" GITHUB_REPO;
          mc_GITHUB_BRANCH := GITHUB_BRANCH;
          mc_GITHUB_TOKEN := GITHUB_TOKEN;
          mc_MODELS_ROOT := MODELS_ROOT;
          mc_MODELS_PATH := MODELS_PATH;
          mc_HEADERS := HEADERS;
          mc_TIMEOUT := 15 |}.
End github_client.

(** ** JSON values, requests and responses *)

#[local] Set Warnings "-register-all".
Inductive json :=
  | JNull
  | JBool (b : bool)
  | JNum (z : Z)
  | JStr (s : string)
  | JArr (l : list json)
  | JObj (o : list (string * json)).

(** Python truthiness of a decoded JSON value ([x or {}], [if not x]). *)
Definition truthy (j : json) : bool :=
  match j with
  | JNull => false
  | JBool b => b
  | JNum z => negb (z =? 0)
  | JStr s => PyStr.nonempty s
  | JArr l => match l with [] => false | _ => true end
  | JObj o => match o with [] => false | _ => true end
  end.

(** What a handler sees of the Flask request: the headers, and the body as
    [request.get_json(silent=True)] returns it ([None] when the body is
    absent, is not declared as JSON or does not parse). *)
Record request := {
  req_headers : PyDict.t string;
  req_json : option json
}.

Definition get_json_silent (req : request) : option json := req_json req.

(** [request.headers.get(name)]: header names compare without regard to
    case, and the first header of that name is returned. *)
Fixpoint headers_get (name : string) (headers : PyDict.t string) : option string :=
  match headers with
  | [] => None
  | (k, v) :: headers' =>
      if String.eqb (PyStr.lower k) (PyStr.lower name) then Some v
      else headers_get name headers'
  end.

(** [request.get_json()]: aborts with 400/415 where the silent form
    returns [None]. *)
Definition get_json (req : request) : pyresult json :=
  match req_json req with
  | Some j => Ok j
  | None => Raise (Exn BadRequest "Failed to decode JSON object")
  end.

(** [jsonify(body), status] *)
Record response := {
  status : Z;
  body : json
}.

Definition jsonify (o : list (string * json)) (code : Z) : response :=
  {| status := code; body := JObj o |}.

(** [j[k]] read back from a JSON object, [None] when [j] is no object or
    has no such key. *)
Definition json_field (k : string) (j : json) : option json :=
  match j with
  | JObj o => PyDict.get k o
  | _ => None
  end.

(** A value that may be [None], as JSON. *)
Definition json_of_option (o : option string) : json :=
  match o with
  | Some s => JStr s
  | None => JNull
  end.

(** ** The registry *)

(** An entry of the active map, with the fields [rest_api.py] reads:
    [active_model["model_path"]], [["model"]], [["model_info"]]. *)
Record active_model := {
  am_model_name : string;
  am_model_path : string;
  am_model : string;
  am_model_info : json
}.

(** Modelled from the spec: the Registry of [api/model_registry.py], which
    is not among the sources.  Section 4.1: two maps sharing one name space,
    [available: name -> ModelDescriptor] and [active: name -> ActiveEntry]. *)
Record registry := {
  available : PyDict.t metadata;
  active : PyDict.t active_model
}.

Module model_registry.

(** Modelled from the spec: [clearAll()] of the absent
    [api/model_registry.py]: "empties both maps". *)
Definition clear_all (r : registry) : registry :=
  {| available := PyDict.empty; active := PyDict.empty |}.

(** Modelled from the spec: [registerOrUpdate(descriptor)] of the absent
    [api/model_registry.py]: "inserts or overwrites; no error condition". *)
Definition register_model (model_name : string) (md : metadata) (r : registry)
  : registry :=
  {| available := PyDict.set model_name md (available r); active := active r |}.

(** Modelled from the spec: [listAvailable()] of the absent
    [api/model_registry.py]: a snapshot view of the available map. *)
Definition list_available_models (r : registry) : PyDict.t metadata := available r.

(** Modelled from the spec: [getActive(name)] of the absent
    [api/model_registry.py]: a point lookup; absence is "not found". *)
Definition get_active_model (model_name : string) (r : registry)
  : option active_model :=
  PyDict.get model_name (active r).

(** Modelled from the spec: [listActive()] of the absent
    [api/model_registry.py]: a snapshot view of the active map. *)
Definition list_active_models (r : registry) : PyDict.t active_model := active r.

(** Modelled from the spec: [get(name)] of the absent
    [api/model_registry.py] as a membership test: a point lookup where
    "absence is a normal (non-error) outcome". *)
Definition is_available (model_name : string) (r : registry) : bool :=
  PyDict.contains model_name (available r).

(** Modelled from the spec: [getActive(name)] of the absent
    [api/model_registry.py] as a membership test. *)
Definition is_active (model_name : string) (r : registry) : bool :=
  PyDict.contains model_name (active r).

End model_registry.

(** ** Collaborators of [rest_api.py] *)

(** What [_initialize_from_filesystem] reads from the disk.  [os.listdir]
    returns the names in an order of the operating system's choosing. *)
Record os_view := {
  path_exists : string -> bool;
  listdir : string -> pyresult (list string);
  path_isdir : string -> bool;
  path_isfile : string -> bool
}.

(** A managed serving container: its name and what
    [container.remove(force=True)] does. *)
Record container := {
  container_name : string;
  container_remove : pyresult unit
}.

(** A normalised change notification. *)
Inductive change_type := added | modified | removed.

Record SyncEvent := {
  changeType : change_type;
  path : string
}.

(** The functions imported from modules outside the two files. *)
Record collaborators := {
  (* model_handlers.model_detector.predict(model_path, model, features) *)
  model_detector_predict : string -> string -> json -> pyresult json;
  (* utils.send_message_to_prediction_destination(payload, model_name) *)
  send_message_to_prediction_destination : json -> string -> pyresult bool;
  (* lifecycle_manager.activate_model(name) -> (success, message, model_data) *)
  lifecycle_activate_model : string -> bool * string * option active_model;
  (* lifecycle_manager.deactivate_model(name) -> (success, message) *)
  lifecycle_deactivate_model : string -> bool * string;
  (* webhook_handler.handle_push_event(payload, branch_filter=...) *)
  handle_push_event : json -> string -> list SyncEvent;
  (* messaging.kafka_consumer.stop_kafka_consumer() *)
  stop_kafka_consumer : pyresult unit;
  (* messaging.mqtt_consumer.stop_mqtt_consumer() *)
  stop_mqtt_consumer : pyresult unit;
  (* tf_serving_manager.list_managed_containers() *)
  list_managed_containers : pyresult (list container)
}.

(** ** Logging *)

Inductive log_level := INFO | WARNING | ERROR.

Record log_record := {
  levelname : log_level;
  message : string
}.

(** How a signal handler ends: [sys.exit(code)], or an exception that
    leaves it. *)
Inductive termination :=
  | SystemExit (code : Z)
  | Propagates (e : exn).

(** ** The push handler *)

Module webhook_handler.

(** Modelled from the spec: the path lists of a push notification, for the
    absent [api/webhook_handler.py]: "a list of changed file paths from a
    push notification". *)
Definition json_strings (j : option json) : list string :=
  match j with
  | Some (JArr l) =>
      omap (fun x => match x with JStr s => Some s | _ => None end) l
  | _ => []
  end.

(** Modelled from the spec: the test for "each changed path that falls
    under the models root" of the absent [api/webhook_handler.py]. *)
Definition under_models_root (p : string) : bool :=
  String.prefix (MODELS_ROOT ++ "/") p.

(** Modelled from the spec: one SyncEvent [{changeType, path}] per changed
    path under the models root, for the absent [api/webhook_handler.py]. *)
Definition events_of (ct : change_type) (paths : list string) : list SyncEvent :=
  map (fun p => {| changeType := ct; path := p |})
      (filter (fun p => under_models_root p = true) paths).

(** Modelled from the spec: the events of one commit of the notification
    (its added, modified and removed paths), for the absent
    [api/webhook_handler.py]. *)
Definition commit_events (c : json) : list SyncEvent :=
  match c with
  | JObj o =>
      (events_of added (json_strings (PyDict.get "added" o)) ++
       events_of modified (json_strings (PyDict.get "modified" o)) ++
       events_of removed (json_strings (PyDict.get "removed" o)))%list
  | _ => []
  end.

(** Modelled from the spec: [handle_push_event(payload, branch_filter)] of
    [api/webhook_handler.py], which is not among the sources.  Section 4.4:
    "given a list of changed file paths from a push notification
    (restricted to a configured branch), computes, for each changed path
    that falls under the models root, a SyncEvent".  The payload is
    GitHub's push event: its [ref], and per commit the [added], [modified]
    and [removed] paths. *)
Definition handle_push_event (payload : json) (branch_filter : string)
  : list SyncEvent :=
  match payload with
  | JObj o =>
      match PyDict.get "ref" o, PyDict.get "commits" o with
      | Some (JStr ref), Some (JArr commits) =>
          if String.eqb ref branch_filter
          then flat_map commit_events commits
          else []
      | _, _ => []
      end
  | _ => []
  end.

End webhook_handler.

(** ** [rest_api.py] *)

Module rest_api.
Section api.
Variable cfg : config.
Variable gh : github.
Variable disk : os_view.
Variable ext : collaborators.

(** *** Initialization *)

(** Load models from GitHub repository.  The [except Exception] arm only
    logs. *)
Definition _initialize_from_github (r : registry) : registry :=
  match github_client.list_github_models cfg gh with
  | Ok github_entries =>
      fold_left (fun r '(model_name, entry) =>
                   model_registry.register_model model_name entry r)
                (PyDict.items github_entries) r
  | Raise _ => r
  end.

(** The [metadata] dict literal of [_initialize_from_filesystem]. *)
Definition local_descriptor (model_name file_path : string) : metadata :=
  [("source", "local_filesystem"); ("model_name", model_name);
   ("model_path", file_path)].

(** The test [os.path.isdir(file_path) or os.path.isfile(file_path)] for
    the directory entry [filename]. *)
Definition is_model_file (filename : string) : bool :=
  path_isdir disk (os_path.join (MODELS_PATH cfg) filename)
  || path_isfile disk (os_path.join (MODELS_PATH cfg) filename).

(** The body of [for filename in os.listdir(MODELS_PATH)]. *)
Definition _initialize_from_filesystem_body (r : registry) (filename : string)
  : registry :=
  let file_path := os_path.join (MODELS_PATH cfg) filename in
  if path_isdir disk file_path || path_isfile disk file_path then
    let model_name := fst (os_path.splitext filename) in
    let metadata := local_descriptor model_name file_path in
    model_registry.register_model model_name metadata r
  else r.

(** Load models from local filesystem.  A failing [os.listdir] is not
    caught here. *)
Definition _initialize_from_filesystem (r : registry) : pyresult unit * registry :=
  if negb (path_exists disk (MODELS_PATH cfg)) then (Ok tt, r)
  else match listdir disk (MODELS_PATH cfg) with
       | Ok filenames =>
           (Ok tt, fold_left _initialize_from_filesystem_body filenames r)
       | Raise e => (Raise e, r)
       end.

(** Initialize the model registry from the configured source. *)
Definition initialize_models (r : registry) : pyresult unit * registry :=
  let r := model_registry.clear_all r in
  if String.eqb (MODEL_SOURCE cfg) "github" then (Ok tt, _initialize_from_github r)
  else _initialize_from_filesystem r.

(** *** Model management endpoints *)

(** [POST /activate/<model_name>] *)
Definition activate_model (model_name : string) : response :=
  let '(success, message, model_data) := lifecycle_activate_model ext model_name in
  if negb success then jsonify [("error", JStr message)] 400
  else jsonify [("message", JStr message);
                ("predict_endpoint", JStr ("/predict/" ++ model_name))] 200.

(** [POST /deactivate/<model_name>] *)
Definition deactivate_model (model_name : string) : response :=
  let '(success, message) := lifecycle_deactivate_model ext model_name in
  jsonify [("message", JStr message)] 200.

(** *** Predictions *)

(** [payload.get("input")]: only a dict has [get]. *)
Definition payload_get_input (payload : json) : pyresult json :=
  match payload with
  | JObj o => Ok (default JNull (PyDict.get "input" o))
  | _ => Raise (Exn AttributeError "object has no attribute 'get'")
  end.

(** Unwrap TF Serving result if needed:
    [if isinstance(result, dict) and "predictions" in result]. *)
Definition unwrap_predictions (result : json) : json :=
  match result with
  | JObj o => default result (PyDict.get "predictions" o)
  | _ => result
  end.

(** [payload = request.get_json(silent=True) or {}] *)
Definition predict_payload (req : request) : json :=
  match get_json_silent req with
  | Some j => if truthy j then j else JObj []
  | None => JObj []
  end.

(** The [try] block of [predict] once the model has answered: unwrap,
    publish, and pick the response. *)
Definition predict_forward (model_name : string) (result : json) : pyresult response :=
  let result := unwrap_predictions result in
  let response_payload :=
    JObj [("model", JStr model_name); ("status", JStr "success");
          ("prediction", result)] in
  sent ← send_message_to_prediction_destination ext response_payload model_name;
  if negb sent then
    Ok (jsonify [("error", JStr "Failed to forward prediction")] 500)
  else
    Ok (jsonify [("status", JStr "sent");
                 ("destination", JStr (PREDICTION_DESTINATION cfg));
                 ("prediction", result)] 200).

(** The [try] block of [predict]. *)
Definition predict_try (model_name : string) (active_model : active_model)
    (features : json) : pyresult response :=
  result ← model_detector_predict ext (am_model_path active_model)
             (am_model active_model) features;
  predict_forward model_name result.

(** The [except Exception as e] block of [predict]. *)
Definition predict_except (model_name : string) (active_model : active_model)
    (e : exn) : pyresult response :=
  let error_message :=
    [("model", JStr model_name); ("status", JStr "error");
     ("error", JStr (exn_str e));
     ("expected_input", am_model_info active_model)] in
  _ ← send_message_to_prediction_destination ext (JObj error_message) model_name;
  Ok (jsonify error_message 400).

(** [POST /predict/<model_name>]: an exception that leaves the handler
    is [Raise]. *)
Definition predict (r : registry) (model_name : string) (req : request)
  : pyresult response :=
  match model_registry.get_active_model model_name r with
  | None =>
      Ok (jsonify [("error", JStr ("Model '" ++ model_name ++ "' not active"))] 404)
  | Some active_model =>
      let payload := predict_payload req in
      features ← payload_get_input payload;
      match predict_try model_name active_model features with
      | Ok resp => Ok resp
      | Raise e => predict_except model_name active_model e
      end
  end.

(** *** Webhooks *)

(** [str(event)] inside the f-string, for a header that may be absent. *)
Definition str_opt (o : option string) : string := default "None" o.

(** [POST /github/webhook]: the response, and the sync events the push
    handler produced. *)
Definition github_webhook (req : request) : pyresult response * list SyncEvent :=
  let event := headers_get "X-GitHub-Event" (req_headers req) in
  if bool_decide (event = Some "ping") then
    (Ok (jsonify [("status", JStr "pong")] 200), [])
  else if negb (bool_decide (event = Some "push")) then
    (Ok (jsonify [("status", JStr ("received " ++ str_opt event))] 200), [])
  else
    (* Process push event *)
    match get_json req with
    | Raise e => (Raise e, [])
    | Ok payload =>
        let events := handle_push_event ext payload "refs/heads/main" in
        (Ok (jsonify [("status", JStr "processed")] 200), events)
    end.

(** *** Shutdown *)

Definition log (lvl : log_level) (msg : string) : log_record :=
  {| levelname := lvl; message := msg |}.

(** Stop messaging consumers *)
Definition cleanup_consumers : list log_record :=
  if String.eqb (INPUT_DATA_SOURCE cfg) "kafka" then
    match stop_kafka_consumer ext with
    | Ok _ => [log INFO "[SHUTDOWN] Kafka consumer stopped"]
    | Raise e =>
        [log ERROR ("[SHUTDOWN] Failed to stop Kafka consumer: " ++ exn_str e)]
    end
  else if String.eqb (INPUT_DATA_SOURCE cfg) "mqtt" then
    match stop_mqtt_consumer ext with
    | Ok _ => [log INFO "[SHUTDOWN] MQTT consumer stopped"]
    | Raise e =>
        [log ERROR ("[SHUTDOWN] Failed to stop MQTT consumer: " ++ exn_str e)]
    end
  else [].

(** The body of [for container in ...list_managed_containers()]. *)
Definition cleanup_container (c : container) : log_record :=
  match container_remove c with
  | Ok _ => log INFO ("[SHUTDOWN] Stopped " ++ container_name c)
  | Raise e =>
      log ERROR ("[SHUTDOWN] Failed to stop " ++ container_name c ++ ": " ++ exn_str e)
  end.

(** Cleanup handler for graceful shutdown: the records logged, and how
    the handler ends.  [list_managed_containers()] is called outside any
    [try]. *)
Definition cleanup : list log_record * termination :=
  let logged :=
    ([log INFO "[SHUTDOWN] Starting cleanup..."] ++ cleanup_consumers ++
     [log INFO "[SHUTDOWN] Stopping TF Serving containers..."])%list in
  match list_managed_containers ext with
  | Raise e => (logged, Propagates e)
  | Ok containers =>
      ((logged ++ map cleanup_container containers ++
        [log INFO "[SHUTDOWN] Cleanup complete"])%list,
       SystemExit 0)
  end.

(** *** Listing, status and help *)

(** [api_url = f"http://{API_HOST}:{PORT}"]; [list_models] and
    [help_endpoint] spell the same prefix out again. *)
Variable api_url : string.

(** The body of the loop of [list_models]: the entry for one available
    model.  An active entry always carries its [model_info] here, so the
    default of [active_data.get("model_info", {})] is never taken. *)
Definition list_models_entry (active_models_dict : PyDict.t active_model)
    (kv : string * metadata) : json :=
  let '(model_name, metadata) := kv in
  let is_active := PyDict.contains model_name active_models_dict in
  let model_entry :=
    [("model_name", JStr model_name);
     ("status", JStr (if is_active then "active" else "inactive"));
     ("model_path", json_of_option (PyDict.get "model_path" metadata));
     ("source", JStr (default "unknown" (PyDict.get "source" metadata)));
     ("predict_url",
      if is_active then JStr (api_url ++ "/predict/" ++ model_name) else JNull)] in
  (* Include model_info for active models *)
  match PyDict.get model_name active_models_dict with
  | Some active_data =>
      JObj (PyDict.set "model_info" (am_model_info active_data) model_entry)
  | None => JObj model_entry
  end.

(** [GET /models]: list all available models with their status. *)
Definition list_models (r : registry) : response :=
  let available := model_registry.list_available_models r in
  let active_models_dict := model_registry.list_active_models r in
  {| status := 200;
     body := JArr (map (list_models_entry active_models_dict)
                       (PyDict.items available)) |}.

(** [GET /status/<model_name>] *)
Definition model_status (r : registry) (model_name : string) : response :=
  if negb (model_registry.is_available model_name r) then
    jsonify [("error", JStr "Model not found")] 404
  else
    jsonify [("model_name", JStr model_name);
             ("active", JBool (model_registry.is_active model_name r))] 200.

(** One element of the [active_models] list of [help_endpoint]; it reads
    the entry's own [model_name]. *)
Definition help_entry (info : active_model) : json :=
  JObj [("model_name", JStr (am_model_name info));
        ("endpoint_url", JStr (api_url ++ "/predict/" ++ am_model_name info));
        ("model_info", am_model_info info)].

(** [GET /help]: the data handed to [json.dumps]. *)
Definition help_endpoint (r : registry) : response :=
  let active_models := model_registry.list_active_models r in
  match active_models with
  | [] => jsonify [("message", JStr "No models currently active.")] 200
  | _ =>
      jsonify
        [("message",
          JStr ("Below are all the active models. " ++
                "To add new models, add them to the repository and they will be " ++
                "automatically detected. Use /activate/<model_name> to activate them."));
         ("active_models", JArr (map (fun kv => help_entry (snd kv)) active_models))]
        200
  end.

(** *** The models page *)

(** One element of [models_data]: the dict built per model, with the two
    keys that only an active model gets. *)
Record ui_entry := {
  ui_model_name : string;
  ui_is_active : bool;
  ui_model_path : option string;
  ui_source : option string;
  ui_model_info : option json;
  ui_endpoint_url : option string
}.

(** The body of the loop of [models_ui]. *)
Definition models_ui_entry (active_models : PyDict.t active_model)
    (kv : string * metadata) : ui_entry :=
  let '(model_name, metadata) := kv in
  let is_active := PyDict.contains model_name active_models in
  {| ui_model_name := model_name;
     ui_is_active := is_active;
     ui_model_path := PyDict.get "model_path" metadata;
     ui_source := PyDict.get "source" metadata;
     (* If active, include runtime info *)
     ui_model_info := am_model_info <$> PyDict.get model_name active_models;
     ui_endpoint_url :=
       if is_active then Some (api_url ++ "/predict/" ++ model_name) else None |}.

(** The sort key [(not m["is_active"], m["model_name"])] and [<] on such
    tuples: the first components decide unless they are equal. *)
Definition ui_key (m : ui_entry) : bool * string :=
  (negb (ui_is_active m), ui_model_name m).

Definition ui_key_ltb (k1 k2 : bool * string) : bool :=
  if Bool.eqb (fst k1) (fst k2) then String.ltb (snd k1) (snd k2)
  else negb (fst k1) && fst k2.

(** [list.sort(key=...)] is a stable sort: an element goes in front of
    the first one whose key is not smaller than its own. *)
Fixpoint sort_insert (m : ui_entry) (l : list ui_entry) : list ui_entry :=
  match l with
  | [] => [m]
  | m' :: l' =>
      if ui_key_ltb (ui_key m') (ui_key m) then m' :: sort_insert m l'
      else m :: m' :: l'
  end.

Definition sort_by_key (l : list ui_entry) : list ui_entry :=
  foldr sort_insert [] l.

(** [models_ui]: the [models] list handed to the template. *)
Definition models_ui (r : registry) : list ui_entry :=
  let all_models := model_registry.list_available_models r in
  let active_models := model_registry.list_active_models r in
  let models_data := map (models_ui_entry active_models) (PyDict.items all_models) in
  (* Sort: active models first, then alphabetically *)
  sort_by_key models_data.
End api.
End rest_api.

(** ** What a download leaves on the disk *)

(** What a download may leave at a path: what was there before, a
    directory, or a file that holds the bytes served for some download
    URL. *)
Definition left_by_download (gh : github) (old new : option node) : Prop :=
  new = old
  \/ new = Some Dir
  \/ exists url content, gh_download gh url = Ok content /\ new = Some (File content).

Definition only_downloads (gh : github) (fs fs' : filesystem) : Prop :=
  forall q, left_by_download gh (fs !! q) (fs' !! q).

(** An action that changes the disk by downloads only, however it ends. *)
Definition downloads_only (gh : github) {A} (m : IO A) : Prop :=
  forall fs, only_downloads gh fs (snd (m fs)).

(** Nothing is removed and nothing changes its kind: a directory stays a
    directory and a file stays a file (its bytes may change). *)
Definition keeps_nodes (fs fs' : filesystem) : Prop :=
  forall q,
    (fs !! q = Some Dir -> fs' !! q = Some Dir)
    /\ (forall content, fs !! q = Some (File content) ->
        exists content', fs' !! q = Some (File content')).

(** The only change is that directories appear where nothing was. *)
Definition only_new_dirs (fs fs' : filesystem) : Prop :=
  forall q, fs' !! q = fs !! q \/ (fs !! q = None /\ fs' !! q = Some Dir).

(** An action whose effect on the disk stays within the relation [R],
    however it ends. *)
Definition io_within (R : filesystem -> filesystem -> Prop) {A} (m : IO A) : Prop :=
  forall fs, R fs (snd (m fs)).

(** [c in s] for a one-character [c]. *)
Fixpoint str_contains (c : ascii) (s : string) : bool :=
  match s with
  | EmptyString => false
  | String a s' => Ascii.eqb a c || str_contains c s'
  end.

(** A single path component, as the entries of a directory listing are:
    not empty, without a separator, and neither [.] nor [..]. *)
Definition path_component (name : string) : bool :=
  PyStr.nonempty name
  && negb (str_contains os_path.sep name)
  && negb (String.eqb name ".")
  && negb (String.eqb name "..").

(** The order the sorted models page obeys between neighbours. *)
Definition ui_key_le (m1 m2 : rest_api.ui_entry) : Prop :=
  rest_api.ui_key_ltb (rest_api.ui_key m2) (rest_api.ui_key m1) = false.

(** An inactive model does not come before an active one. *)
Definition active_first (m1 m2 : rest_api.ui_entry) : Prop :=
  rest_api.ui_is_active m2 = true -> rest_api.ui_is_active m1 = true.

(** ** Sample inputs *)

Module Sample.

Definition cfg : config :=
  {| GITHUB_REPO := "apnevma/models-to-test"; GITHUB_BRANCH := "main";
     MODEL_SOURCE := "local_filesystem"; MODELS_PATH := "/models";
     INPUT_DATA_SOURCE := "kafka"; PREDICTION_DESTINATION := "kafka" |}.

Definition cfg_github : config :=
  {| GITHUB_REPO := "apnevma/models-to-test"; GITHUB_BRANCH := "main";
     MODEL_SOURCE := "github"; MODELS_PATH := "/models";
     INPUT_DATA_SOURCE := "kafka"; PREDICTION_DESTINATION := "kafka" |}.

(** The deployment follows branch [dev] of the repository. *)
Definition cfg_dev : config :=
  {| GITHUB_REPO := "apnevma/models-to-test"; GITHUB_BRANCH := "dev";
     MODEL_SOURCE := "github"; MODELS_PATH := "/models";
     INPUT_DATA_SOURCE := "kafka"; PREDICTION_DESTINATION := "kafka" |}.

Definition file_item (name : string) : item :=
  {| item_name := name; item_type := "file";
     item_download_url := "https://raw.example/" ++ name |}.

Definition dir_item (name : string) : item :=
  {| item_name := name; item_type := "dir"; item_download_url := "" |}.

(** A repository whose models root lists [root]. *)
Definition gh_root (root : list item) : github :=
  {| gh_contents := fun _ p =>
       if String.eqb p MODELS_ROOT then Ok (JsonList root)
       else Raise (Exn HTTPError "404 Client Error");
     gh_download := fun _ => Raise (Exn HTTPError "404 Client Error") |}.

(** A models directory whose listing is [names]; [dirs] are its folders,
    every other name is a regular file. *)
Definition disk_of (names dirs : list string) : os_view :=
  {| path_exists := fun p => String.eqb p "/models";
     listdir := fun p =>
       if String.eqb p "/models" then Ok names
       else Raise (Exn FileNotFoundError p);
     path_isdir := fun p =>
       existsb (fun n => String.eqb p (os_path.join "/models" n)) dirs;
     path_isfile := fun p =>
       existsb (fun n => String.eqb p (os_path.join "/models" n)) names
       && negb (existsb (fun n => String.eqb p (os_path.join "/models" n)) dirs) |}.

Definition empty_registry : registry :=
  {| available := PyDict.empty; active := PyDict.empty |}.

(** A registry that already knows [rf_model]. *)
Definition registry_rf : registry :=
  {| available :=
       [("rf_model", rest_api.local_descriptor "rf_model" "/models/rf_model.pkl")];
     active := PyDict.empty |}.

Definition rf_active : active_model :=
  {| am_model_name := "rf_model"; am_model_path := "/models/rf_model.pkl";
     am_model := "RandomForestClassifier";
     am_model_info := JObj [("type", JStr "sklearn"); ("n_features", JNum 4)] |}.

(** A registry in which [rf_model] is active. *)
Definition registry_active : registry :=
  {| available :=
       [("rf_model", rest_api.local_descriptor "rf_model" "/models/rf_model.pkl")];
     active := [("rf_model", rf_active)] |}.

(** Collaborators: a model that answers [answer] on absent features and
    the number of features otherwise, a broker whose publishing returns
    [published], a lifecycle manager whose deactivation reports
    [deactivated], and the given consumers and containers. *)
Definition collab (answer : pyresult json) (published deactivated : bool)
    (stop : pyresult unit) (containers : pyresult (list container)) : collaborators :=
  {| model_detector_predict := fun _ _ features =>
       match features with
       | JArr l => Ok (JNum (Z.of_nat (List.length l)))
       | _ => answer
       end;
     send_message_to_prediction_destination := fun _ _ => Ok published;
     lifecycle_activate_model := fun name => (true, "Model activated", Some rf_active);
     lifecycle_deactivate_model := fun name => (deactivated, "Model deactivated");
     handle_push_event := webhook_handler.handle_push_event;
     stop_kafka_consumer := stop;
     stop_mqtt_consumer := stop;
     list_managed_containers := containers |}.

(** A push notification for [ref] that adds [paths]. *)
Definition push_request (ref : string) (paths : list string) : request :=
  {| req_headers := [("X-GitHub-Event", "push")];
     req_json :=
       Some (JObj [("ref", JStr ref);
                   ("commits",
                    JArr [JObj [("added", JArr (map JStr paths));
                                ("modified", JArr []);
                                ("removed", JArr [])]])]) |}.

(** A repository with the folder model [models/fire_pytorch]: a weights
    file and a sub-folder with a configuration file. *)
Definition gh_fire : github :=
  {| gh_contents := fun _ p =>
       if String.eqb p "models/fire_pytorch" then
         Ok (JsonList [file_item "weights.bin"; dir_item "config"])
       else if String.eqb p "models/fire_pytorch/config" then
         Ok (JsonList [file_item "labels.json"])
       else Raise (Exn HTTPError "404 Client Error");
     gh_download := fun url =>
       if String.eqb url "https://raw.example/weights.bin" then Ok "fresh weights"
       else if String.eqb url "https://raw.example/labels.json" then Ok "fire,smoke"
       else Raise (Exn HTTPError "404 Client Error") |}.

Definition fire_entry : metadata :=
  github_client.github_descriptor "fire_pytorch" (dir_item "fire_pytorch").

(** A disk that holds an earlier copy of the model. *)
Definition fs_old : filesystem :=
  <["/models" := Dir]>
    (<["/models/fire_pytorch" := Dir]>
       (<["/models/fire_pytorch/old.bin" := File "stale weights"]> ∅)).

(** A repository with the single-file model [models/rf_model.pkl]. *)
Definition gh_rf : github :=
  {| gh_contents := fun _ p =>
       if String.eqb p "models/rf_model.pkl"
       then Ok (JsonDict (file_item "rf_model.pkl"))
       else Raise (Exn HTTPError "404 Client Error");
     gh_download := fun url =>
       if String.eqb url "https://raw.example/rf_model.pkl" then Ok "pickled forest"
       else Raise (Exn HTTPError "404 Client Error") |}.

(** An entry for that file under a name of its own. *)
Definition rf_entry : metadata :=
  [("source", "github"); ("model_name", "forest"); ("type", "file");
   ("model_path", "models/rf_model.pkl")].

End Sample.

(** * Properties *)

(** ** [os.path] on the names the sources mention *)

Example splitext_rf_model : os_path.splitext "rf_model.pkl" = ("rf_model", ".pkl").
Proof. reflexivity. Qed.

Example splitext_two_dots : os_path.splitext "a.tar.gz" = ("a.tar", ".gz").
Proof. reflexivity. Qed.

Example splitext_hidden : os_path.splitext ".bashrc" = (".bashrc", "").
Proof. reflexivity. Qed.

Example splitext_no_dot : os_path.splitext "fire_pytorch" = ("fire_pytorch", "").
Proof. reflexivity. Qed.

Example join_models : os_path.join "/models" "rf_model.pkl" = "/models/rf_model.pkl".
Proof. reflexivity. Qed.

Example split_nested : os_path.split "/models/m/w.bin" = ("/models/m", "w.bin").
Proof. reflexivity. Qed.

Example basename_repo_path : os_path.basename "models/rf_model.pkl" = "rf_model.pkl".
Proof. reflexivity. Qed.

(** ** Dictionaries *)

Module PyDictFacts.
Section facts.
Context {V : Type}.
Implicit Types (d : PyDict.t V) (k : string) (v : V).

Lemma eqb_true k k' : String.eqb k k' = true <-> k = k'.
Proof. apply String.eqb_eq. Qed.

Lemma eqb_false k k' : String.eqb k k' = false <-> k <> k'.
Proof. apply String.eqb_neq. Qed.

Lemma get_set_eq k v d : PyDict.get k (PyDict.set k v d) = Some v.
Proof.
  induction d as [|[k' v'] d IH]; simpl.
  - by rewrite String.eqb_refl.
  - destruct (String.eqb k k') eqn:E; simpl; rewrite E; [done | apply IH].
Qed.

Lemma get_set_ne k k' v d :
  k <> k' -> PyDict.get k' (PyDict.set k v d) = PyDict.get k' d.
Proof.
  intros Hne. induction d as [|[k0 v0] d IH]; simpl.
  - apply eqb_false in Hne. rewrite String.eqb_sym in Hne. by rewrite Hne.
  - destruct (String.eqb k k0) eqn:E; simpl.
    + apply eqb_true in E; subst k0.
      assert (String.eqb k' k = false) as -> by (apply eqb_false; congruence).
      done.
    + by rewrite IH.
Qed.

Lemma get_None_keys k d : PyDict.get k d = None <-> k ∉ PyDict.keys d.
Proof.
  unfold PyDict.keys. induction d as [|[k' v'] d IH]; csimpl.
  - split; [intros _; apply not_elem_of_nil | done].
  - rewrite not_elem_of_cons. destruct (String.eqb k k') eqn:E.
    + apply eqb_true in E. split; [done | intros [? _]; done].
    + apply eqb_false in E. rewrite IH. tauto.
Qed.

Lemma get_Some_keys k d : is_Some (PyDict.get k d) <-> k ∈ PyDict.keys d.
Proof.
  rewrite <- not_eq_None_Some, get_None_keys.
  split; [apply dec_stable | tauto].
Qed.

(** Assigning to a key that is present leaves the key list as it is. *)
Lemma keys_set_in k v d :
  k ∈ PyDict.keys d -> PyDict.keys (PyDict.set k v d) = PyDict.keys d.
Proof.
  unfold PyDict.keys. induction d as [|[k' v'] d IH]; csimpl; intros Hin.
  - by apply elem_of_nil in Hin.
  - destruct (String.eqb k k') eqn:E; csimpl; [done |].
    apply eqb_false in E. apply elem_of_cons in Hin as [? | Hin]; [done |].
    by rewrite IH.
Qed.

(** Assigning to a new key appends it. *)
Lemma keys_set_notin k v d :
  k ∉ PyDict.keys d -> PyDict.keys (PyDict.set k v d) = (PyDict.keys d ++ [k])%list.
Proof.
  unfold PyDict.keys. induction d as [|[k' v'] d IH]; csimpl; intros Hin; [done |].
  apply not_elem_of_cons in Hin as [Hne Hin].
  apply eqb_false in Hne. rewrite Hne. csimpl. by rewrite IH.
Qed.

Lemma keys_set_NoDup k v d :
  NoDup (PyDict.keys d) -> NoDup (PyDict.keys (PyDict.set k v d)).
Proof.
  intros Hnd. destruct (decide (k ∈ PyDict.keys d)) as [Hin | Hin].
  - by rewrite keys_set_in.
  - rewrite keys_set_notin by done. apply NoDup_app. split; [done |].
    split; [| apply NoDup_singleton].
    intros x Hx Hx'. apply list_elem_of_singleton in Hx'. by subst.
Qed.

Lemma elem_of_keys_set k k' v d :
  k' ∈ PyDict.keys (PyDict.set k v d) <-> k' = k \/ k' ∈ PyDict.keys d.
Proof.
  destruct (decide (k ∈ PyDict.keys d)) as [Hin | Hin].
  - rewrite keys_set_in by done. split; [tauto | intros [-> | ?]; done].
  - rewrite keys_set_notin by done. rewrite elem_of_app, list_elem_of_singleton. tauto.
Qed.

Lemma len_set_in k v d :
  k ∈ PyDict.keys d -> PyDict.len (PyDict.set k v d) = PyDict.len d.
Proof.
  intros Hin. apply (keys_set_in k v) in Hin.
  apply (f_equal List.length) in Hin. unfold PyDict.keys in Hin.
  by rewrite !length_fmap in Hin.
Qed.

(** Re-assigning every item of a dictionary, in order, to an empty one
    gives the dictionary back. *)
Lemma set_items_app d k v :
  k ∉ PyDict.keys d -> PyDict.set k v d = (d ++ [(k, v)])%list.
Proof.
  unfold PyDict.keys. induction d as [|[k' v'] d IH]; csimpl; intros Hin; [done |].
  apply not_elem_of_cons in Hin as [Hne Hin].
  apply eqb_false in Hne. rewrite Hne. by rewrite IH.
Qed.

Lemma fold_set_items d0 d :
  NoDup (PyDict.keys (d0 ++ d)%list) ->
  fold_left (fun acc '(k, v) => PyDict.set k v acc) d d0 = (d0 ++ d)%list.
Proof.
  revert d0. induction d as [|[k v] d IH]; intros d0 Hnd; csimpl.
  - by rewrite app_nil_r.
  - assert (k ∉ PyDict.keys d0) as Hk.
    { unfold PyDict.keys in *. rewrite fmap_app in Hnd.
      apply NoDup_app in Hnd as (_ & Hdisj & _).
      intros Hin. apply (Hdisj k Hin). csimpl. apply elem_of_cons. by left. }
    rewrite set_items_app by done.
    rewrite IH; rewrite <- app_assoc; done.
Qed.
End facts.
End PyDictFacts.

(** ** Discovery: the names in the registry *)

Section discovery.
Variable cfg : config.
Variable disk : os_view.

Local Abbreviation gh_body := github_client.list_github_models_body.
Local Abbreviation fs_body := (rest_api._initialize_from_filesystem_body cfg disk).
Local Abbreviation reg_item :=
  (fun (r : registry) '(model_name, entry) =>
     model_registry.register_model model_name entry r).

Lemma gh_body_file models it :
  item_type it = "file" ->
  gh_body models it =
  PyDict.set (fst (os_path.splitext (item_name it)))
    (github_client.github_descriptor (fst (os_path.splitext (item_name it))) it) models.
Proof. intros Ht. unfold github_client.list_github_models_body. by rewrite Ht. Qed.

Lemma gh_body_dir models it :
  item_type it = "dir" ->
  gh_body models it =
  PyDict.set (item_name it) (github_client.github_descriptor (item_name it) it) models.
Proof. intros Ht. unfold github_client.list_github_models_body. by rewrite Ht. Qed.

Lemma gh_body_other models it :
  item_type it <> "file" -> item_type it <> "dir" -> gh_body models it = models.
Proof.
  intros Hf Hd. unfold github_client.list_github_models_body.
  apply String.eqb_neq in Hf, Hd. by rewrite Hf, Hd.
Qed.

Lemma fs_body_model r filename :
  path_isdir disk (os_path.join (MODELS_PATH cfg) filename)
    || path_isfile disk (os_path.join (MODELS_PATH cfg) filename) = true ->
  fs_body r filename =
  model_registry.register_model (fst (os_path.splitext filename))
    (rest_api.local_descriptor (fst (os_path.splitext filename))
       (os_path.join (MODELS_PATH cfg) filename)) r.
Proof.
  intros H. unfold rest_api._initialize_from_filesystem_body. by rewrite H.
Qed.

Lemma fs_body_skip r filename :
  path_isdir disk (os_path.join (MODELS_PATH cfg) filename)
    || path_isfile disk (os_path.join (MODELS_PATH cfg) filename) = false ->
  fs_body r filename = r.
Proof.
  intros H. unfold rest_api._initialize_from_filesystem_body. by rewrite H.
Qed.

Lemma gh_body_NoDup models it :
  NoDup (PyDict.keys models) -> NoDup (PyDict.keys (gh_body models it)).
Proof.
  intros Hnd. unfold github_client.list_github_models_body.
  repeat case_match; auto using PyDictFacts.keys_set_NoDup.
Qed.

Lemma fs_body_NoDup r filename :
  NoDup (PyDict.keys (available r)) ->
  NoDup (PyDict.keys (available (fs_body r filename))).
Proof.
  intros Hnd. unfold rest_api._initialize_from_filesystem_body.
  case_match; [apply PyDictFacts.keys_set_NoDup |]; done.
Qed.

Lemma reg_item_NoDup r kv :
  NoDup (PyDict.keys (available r)) ->
  NoDup (PyDict.keys (available (reg_item r kv))).
Proof. destruct kv as [k v]. apply PyDictFacts.keys_set_NoDup. Qed.

(** An invariant of a loop body holds after any number of iterations. *)
Lemma fold_left_invariant {A B} (P : A -> Prop) (f : A -> B -> A) (l : list B) a :
  (forall a b, P a -> P (f a b)) -> P a -> P (fold_left f l a).
Proof. intros Hf. revert a. induction l; simpl; auto. Qed.

Lemma fold_left_snoc {A B} (f : A -> B -> A) (l : list B) (b : B) a :
  fold_left f (l ++ [b])%list a = f (fold_left f l a) b.
Proof. by rewrite fold_left_app. Qed.
End discovery.

(** C1.  While model listing processes discovery results, the names in
    the dictionary built by [list_github_models] and in the registry's
    available map stay pairwise distinct after every step; registering a
    name that is already known keeps the key list as it is and replaces
    the descriptor, and after any sequence of results the descriptor under
    a name is the one written last. *)
Theorem registry_names_unique (cfg : config) (disk : os_view) :
  (forall (its : list item) (n : nat),
     NoDup (PyDict.keys
              (fold_left github_client.list_github_models_body (take n its)
                         PyDict.empty)))
  /\ (forall (r : registry) (filenames : list string) (n : nat),
        NoDup (PyDict.keys (available r)) ->
        NoDup (PyDict.keys
                 (available
                    (fold_left (rest_api._initialize_from_filesystem_body cfg disk)
                               (take n filenames) r))))
  /\ (forall (r : registry) (entries : PyDict.t metadata) (n : nat),
        NoDup (PyDict.keys (available r)) ->
        NoDup (PyDict.keys
                 (available
                    (fold_left (fun r '(model_name, entry) =>
                                  model_registry.register_model model_name entry r)
                               (take n (PyDict.items entries)) r))))
  /\ (forall (r : registry) (name : string) (md : metadata),
        name ∈ PyDict.keys (available r) ->
        let r' := model_registry.register_model name md r in
        PyDict.keys (available r') = PyDict.keys (available r)
        /\ PyDict.get name (available r') = Some md
        /\ forall k, k <> name ->
             PyDict.get k (available r') = PyDict.get k (available r))
  /\ (forall (models : PyDict.t metadata) (its : list item) (it : item),
        let models' :=
          fold_left github_client.list_github_models_body (its ++ [it])%list models in
        (item_type it = "file" ->
         PyDict.get (fst (os_path.splitext (item_name it))) models' =
         Some (github_client.github_descriptor (fst (os_path.splitext (item_name it))) it))
        /\ (item_type it = "dir" ->
            PyDict.get (item_name it) models' =
            Some (github_client.github_descriptor (item_name it) it)))
  /\ (forall (r : registry) (filenames : list string) (filename : string),
        path_isdir disk (os_path.join (MODELS_PATH cfg) filename)
          || path_isfile disk (os_path.join (MODELS_PATH cfg) filename) = true ->
        PyDict.get (fst (os_path.splitext filename))
          (available
             (fold_left (rest_api._initialize_from_filesystem_body cfg disk)
                        (filenames ++ [filename])%list r)) =
        Some (rest_api.local_descriptor (fst (os_path.splitext filename))
                (os_path.join (MODELS_PATH cfg) filename))).
Proof.
  repeat split.
  - intros its n. apply (fold_left_invariant (fun d => NoDup (PyDict.keys d))).
    + intros a b. apply gh_body_NoDup.
    + apply NoDup_nil_2.
  - intros r filenames n Hnd.
    apply (fold_left_invariant (fun r => NoDup (PyDict.keys (available r)))); [| done].
    intros a b. apply fs_body_NoDup.
  - intros r entries n Hnd.
    apply (fold_left_invariant (fun r => NoDup (PyDict.keys (available r)))); [| done].
    intros a b. apply (reg_item_NoDup a b).
  - simpl. by apply PyDictFacts.keys_set_in.
  - simpl. apply PyDictFacts.get_set_eq.
  - simpl. intros k Hk. apply PyDictFacts.get_set_ne. congruence.
  - intros Ht. rewrite fold_left_snoc, gh_body_file by done.
    apply PyDictFacts.get_set_eq.
  - intros Ht. rewrite fold_left_snoc, gh_body_dir by done.
    apply PyDictFacts.get_set_eq.
  - intros r filenames filename H.
    rewrite fold_left_snoc, fs_body_model by done.
    simpl. apply PyDictFacts.get_set_eq.
Qed.

Lemma registry_names_unique_witness :
  NoDup (PyDict.keys (available Sample.registry_rf))
  /\ "rf_model" ∈ PyDict.keys (available Sample.registry_rf)
  /\ NoDup (PyDict.keys
              (available
                 (fold_left
                    (rest_api._initialize_from_filesystem_body Sample.cfg
                       (Sample.disk_of ["rf_model.pkl"; "rf_model"] ["rf_model"]))
                    (take 2 ["rf_model.pkl"; "rf_model"]) Sample.registry_rf)))
  /\ PyDict.keys
       (available
          (model_registry.register_model "rf_model"
             (rest_api.local_descriptor "rf_model" "/models/rf_model")
             Sample.registry_rf)) = ["rf_model"].
Proof.
  assert (NoDup (PyDict.keys (available Sample.registry_rf))) as Hnd.
  { apply NoDup_singleton. }
  assert ("rf_model" ∈ PyDict.keys (available Sample.registry_rf)) as Hin.
  { apply list_elem_of_singleton. reflexivity. }
  pose proof (registry_names_unique Sample.cfg
                (Sample.disk_of ["rf_model.pkl"; "rf_model"] ["rf_model"]))
    as (_ & Hfs & _ & Hreg & _).
  split; [exact Hnd |]. split; [exact Hin |]. split.
  - apply Hfs. exact Hnd.
  - apply (Hreg Sample.registry_rf "rf_model"
             (rest_api.local_descriptor "rf_model" "/models/rf_model") Hin).
Defined.

(** C10.  A file [x.pkl] and a folder [x] at the models root get the same
    registry key [x]: whichever of the two is enumerated later replaces the
    other, in the GitHub listing and in the filesystem initialization, so
    only one of the two artifacts is registered. *)
Theorem file_and_folder_share_a_key :
  exists f d : item,
    f <> d
    /\ item_type f = "file" /\ item_name f = "x.pkl"
    /\ item_type d = "dir" /\ item_name d = "x"
    /\ fst (os_path.splitext (item_name f)) = item_name d
    /\ (forall cfg,
          github_client.list_github_models cfg (Sample.gh_root [f; d]) =
          Ok [("x", github_client.github_descriptor "x" d)])
    /\ (forall cfg,
          github_client.list_github_models cfg (Sample.gh_root [d; f]) =
          Ok [("x", github_client.github_descriptor "x" f)])
    /\ (forall gh r,
          snd (rest_api.initialize_models Sample.cfg gh
                 (Sample.disk_of [item_name f; item_name d] [item_name d]) r) =
          {| available := [("x", rest_api.local_descriptor "x" "/models/x")];
             active := PyDict.empty |})
    /\ (forall gh r,
          snd (rest_api.initialize_models Sample.cfg gh
                 (Sample.disk_of [item_name d; item_name f] [item_name d]) r) =
          {| available := [("x", rest_api.local_descriptor "x" "/models/x.pkl")];
             active := PyDict.empty |}).
Proof.
  exists (Sample.file_item "x.pkl"), (Sample.dir_item "x").
  repeat split; try reflexivity.
  intros Heq. discriminate Heq.
Qed.

(** C3.  The GitHub listing strips the extension of a file and keeps a
    folder name as it is, but the filesystem initialization applies
    [os.path.splitext] to folders too: the local folder [fire.v2] is
    registered as [fire], while the same folder listed from GitHub is
    registered as [fire.v2]. *)
Theorem local_folder_name_is_stripped :
  (forall cfg,
     github_client.list_github_models cfg
       (Sample.gh_root [Sample.file_item "rf_model.pkl"; Sample.dir_item "fire.v2"]) =
     Ok [("rf_model",
          github_client.github_descriptor "rf_model" (Sample.file_item "rf_model.pkl"));
         ("fire.v2",
          github_client.github_descriptor "fire.v2" (Sample.dir_item "fire.v2"))])
  /\ (forall gh r,
        snd (rest_api.initialize_models Sample.cfg gh
               (Sample.disk_of ["rf_model.pkl"; "fire.v2"] ["fire.v2"]) r) =
        {| available :=
             [("rf_model", rest_api.local_descriptor "rf_model" "/models/rf_model.pkl");
              ("fire", rest_api.local_descriptor "fire" "/models/fire.v2")];
           active := PyDict.empty |})
  /\ PyDict.get "fire.v2"
       (available
          (snd (rest_api.initialize_models Sample.cfg (Sample.gh_root [])
                  (Sample.disk_of ["rf_model.pkl"; "fire.v2"] ["fire.v2"])
                  Sample.empty_registry))) = None.
Proof. repeat split; reflexivity. Qed.

(** ** Initialization *)

Section initialization.
Variable cfg : config.
Variable gh : github.
Variable disk : os_view.

Local Abbreviation fs_body := (rest_api._initialize_from_filesystem_body cfg disk).
Local Abbreviation reg_item :=
  (fun (r : registry) '(model_name, entry) =>
     model_registry.register_model model_name entry r).

Local Abbreviation is_model_file := (rest_api.is_model_file cfg disk).

Lemma fold_reg_item_active (d : PyDict.t metadata) r :
  active (fold_left reg_item d r) = active r.
Proof.
  revert r. induction d as [|[k v] d IH]; intros r; simpl; [done |].
  by rewrite IH.
Qed.

Lemma fold_reg_item_available (d : PyDict.t metadata) r :
  available (fold_left reg_item d r) =
  fold_left (fun acc '(k, v) => PyDict.set k v acc) d (available r).
Proof.
  revert r. induction d as [|[k v] d IH]; intros r; simpl; [done |].
  by rewrite IH.
Qed.

Lemma fold_fs_body_active filenames r :
  active (fold_left fs_body filenames r) = active r.
Proof.
  revert r. induction filenames as [|f l IH]; intros r; simpl; [done |].
  rewrite IH. unfold rest_api._initialize_from_filesystem_body.
  by case_match.
Qed.

Lemma fold_fs_body_keys filenames r k :
  k ∈ PyDict.keys (available (fold_left fs_body filenames r)) <->
  k ∈ PyDict.keys (available r)
  \/ exists filename, filename ∈ filenames /\ is_model_file filename = true
                      /\ k = fst (os_path.splitext filename).
Proof.
  revert r. induction filenames as [|f l IH]; intros r; simpl.
  - split; [by left |]. intros [? | (f & Hf & _)]; [done |].
    by apply elem_of_nil in Hf.
  - rewrite IH. destruct (is_model_file f) eqn:Hok.
    + rewrite fs_body_model by exact Hok. simpl.
      rewrite PyDictFacts.elem_of_keys_set. split.
      * intros [[-> | Hk] | (f' & Hf' & Hok' & ->)].
        -- right. exists f. split; [apply elem_of_cons; by left | done].
        -- by left.
        -- right. exists f'. split; [apply elem_of_cons; by right | done].
      * intros [Hk | (f' & Hf' & Hok' & ->)]; [left; by right |].
        apply elem_of_cons in Hf' as [-> | Hf']; [left; by left |].
        right. by exists f'.
    + rewrite fs_body_skip by exact Hok. split.
      * intros [Hk | (f' & Hf' & Hok' & ->)]; [by left |].
        right. exists f'. split; [apply elem_of_cons; by right | done].
      * intros [Hk | (f' & Hf' & Hok' & ->)]; [by left |].
        apply elem_of_cons in Hf' as [-> | Hf']; [congruence |].
        right. by exists f'.
Qed.

Lemma fold_fs_body_get filenames r k md :
  PyDict.get k (available (fold_left fs_body filenames r)) = Some md ->
  PyDict.get k (available r) = Some md
  \/ exists filename, filename ∈ filenames /\ is_model_file filename = true
                      /\ k = fst (os_path.splitext filename)
                      /\ md = rest_api.local_descriptor k
                                (os_path.join (MODELS_PATH cfg) filename).
Proof.
  revert r. induction filenames as [|f l IH]; intros r; simpl; [by left |].
  intros Hget. apply IH in Hget as [Hget | (f' & Hf' & Hok' & -> & ->)].
  - destruct (is_model_file f) eqn:Hok.
    + rewrite fs_body_model in Hget by exact Hok. simpl in Hget.
      destruct (decide (fst (os_path.splitext f) = k)) as [<- | Hne].
      * rewrite PyDictFacts.get_set_eq in Hget. injection Hget as <-.
        right. exists f. split; [apply elem_of_cons; by left | done].
      * rewrite PyDictFacts.get_set_ne in Hget by done. by left.
    + rewrite fs_body_skip in Hget by exact Hok. by left.
  - right. exists f'. split; [apply elem_of_cons; by right | done].
Qed.

Lemma list_github_models_NoDup entries :
  github_client.list_github_models cfg gh = Ok entries ->
  NoDup (PyDict.keys entries).
Proof.
  unfold github_client.list_github_models.
  destruct (github_client.list_repo_root cfg gh) as [[it | its] | e];
    simpl; try discriminate.
  intros [= <-].
  apply (fold_left_invariant (fun d => NoDup (PyDict.keys d))).
  - intros a b. apply gh_body_NoDup.
  - apply NoDup_nil_2.
Qed.
End initialization.

(** C6.  [initialize_models] leaves the active map empty and a registry
    that does not depend on the one it started from.  With the GitHub
    source the available map is the dictionary [list_github_models]
    returned (empty when the listing failed); with the local source its
    keys are the stripped names of the directory entries that are a folder
    or a regular file, each carrying the descriptor built for such an
    entry. *)
Theorem initialize_models_rebuilds_registry
    (cfg : config) (gh : github) (disk : os_view) (r0 : registry) :
  let r := snd (rest_api.initialize_models cfg gh disk r0) in
  active r = PyDict.empty
  /\ r = snd (rest_api.initialize_models cfg gh disk
                {| available := PyDict.empty; active := PyDict.empty |})
  /\ (if String.eqb (MODEL_SOURCE cfg) "github" then
        available r =
        match github_client.list_github_models cfg gh with
        | Ok entries => entries
        | Raise _ => PyDict.empty
        end
      else
        (forall k,
           k ∈ PyDict.keys (available r) <->
           exists filenames filename,
             path_exists disk (MODELS_PATH cfg) = true
             /\ listdir disk (MODELS_PATH cfg) = Ok filenames
             /\ filename ∈ filenames
             /\ rest_api.is_model_file cfg disk filename = true
             /\ k = fst (os_path.splitext filename))
        /\ (forall k md,
              PyDict.get k (available r) = Some md ->
              exists filenames filename,
                listdir disk (MODELS_PATH cfg) = Ok filenames
                /\ filename ∈ filenames
                /\ rest_api.is_model_file cfg disk filename = true
                /\ k = fst (os_path.splitext filename)
                /\ md = rest_api.local_descriptor k
                          (os_path.join (MODELS_PATH cfg) filename))).
Proof.
  unfold rest_api.initialize_models. simpl.
  destruct (String.eqb (MODEL_SOURCE cfg) "github") eqn:Hsrc; simpl.
  - unfold rest_api._initialize_from_github.
    destruct (github_client.list_github_models cfg gh) as [entries | e] eqn:Hl;
      simpl; [| done].
    split; [by rewrite fold_reg_item_active |]. split; [done |].
    rewrite fold_reg_item_available. simpl.
    rewrite PyDictFacts.fold_set_items; [done |].
    simpl. by apply (list_github_models_NoDup cfg gh).
  - unfold rest_api._initialize_from_filesystem.
    destruct (path_exists disk (MODELS_PATH cfg)) eqn:Hex; simpl.
    + destruct (listdir disk (MODELS_PATH cfg)) as [filenames | e] eqn:Hls; simpl.
      * split; [by rewrite fold_fs_body_active |]. split; [done |]. split.
        -- intros k. rewrite fold_fs_body_keys. simpl. split.
           ++ intros [Hk | (f & Hf & Hok & ->)]; [by apply elem_of_nil in Hk |].
              by exists filenames, f.
           ++ intros (l & f & _ & [= <-] & Hf & Hok & ->). right. by exists f.
        -- intros k md Hget.
           apply fold_fs_body_get in Hget as [Hget | (f & Hf & Hok & -> & ->)];
             [discriminate |].
           by exists filenames, f.
      * split; [done |]. split; [done |]. split.
        -- intros k. split; [intros Hk; by apply elem_of_nil in Hk |].
           intros (l & f & _ & ? & _); discriminate.
        -- intros k md Hget. discriminate.
    + split; [done |]. split; [done |]. split.
      * intros k. split; [intros Hk; by apply elem_of_nil in Hk |].
        intros (l & f & ? & _); discriminate.
      * intros k md Hget. discriminate.
Qed.

(** ** The prediction endpoint *)

Section predict_facts.
Variable cfg : config.
Variable ext : collaborators.

Lemma predict_active r model_name req am features :
  model_registry.get_active_model model_name r = Some am ->
  rest_api.payload_get_input (rest_api.predict_payload req) = Ok features ->
  rest_api.predict cfg ext r model_name req =
  match rest_api.predict_try cfg ext model_name am features with
  | Ok resp => Ok resp
  | Raise e => rest_api.predict_except ext model_name am e
  end.
Proof.
  intros Hact Hfeat. unfold rest_api.predict. by rewrite Hact, Hfeat.
Qed.

(** A body that is absent or does not parse, and a JSON object without
    the key, all give [features = None]. *)
Lemma features_default_None req :
  req_json req = None
  \/ (exists o, req_json req = Some (JObj o) /\ PyDict.get "input" o = None) ->
  rest_api.payload_get_input (rest_api.predict_payload req) = Ok JNull.
Proof.
  unfold rest_api.predict_payload, get_json_silent.
  intros [-> | (o & -> & Hget)]; [done |].
  destruct o as [|kv o]; [done |]. simpl truthy. cbv iota.
  unfold rest_api.payload_get_input. by rewrite Hget.
Qed.
End predict_facts.

(** C7.  When the model is active, inference returns a result and
    publishing that result reports failure, [predict] answers with status
    500 and the body [{"error": "Failed to forward prediction"}]. *)
Theorem predict_forward_failure
    (cfg : config) (ext : collaborators) (r : registry) (model_name : string)
    (req : request) (am : active_model) (features result : json) :
  model_registry.get_active_model model_name r = Some am ->
  rest_api.payload_get_input (rest_api.predict_payload req) = Ok features ->
  model_detector_predict ext (am_model_path am) (am_model am) features = Ok result ->
  send_message_to_prediction_destination ext
    (JObj [("model", JStr model_name); ("status", JStr "success");
           ("prediction", rest_api.unwrap_predictions result)])
    model_name = Ok false ->
  rest_api.predict cfg ext r model_name req =
  Ok {| status := 500;
        body := JObj [("error", JStr "Failed to forward prediction")] |}.
Proof.
  intros Hact Hfeat Hres Hsend.
  rewrite (predict_active cfg ext r model_name req am features Hact Hfeat).
  unfold rest_api.predict_try, rest_api.predict_forward.
  rewrite Hres. simpl. by rewrite Hsend.
Qed.

Lemma predict_forward_failure_witness :
  rest_api.predict Sample.cfg
    (Sample.collab (Ok (JNum 0)) false true (Ok tt) (Ok []))
    Sample.registry_active "rf_model"
    {| req_headers := [];
       req_json := Some (JObj [("input", JArr [JNum 5; JNum 3; JNum 1; JNum 0])]) |} =
  Ok {| status := 500;
        body := JObj [("error", JStr "Failed to forward prediction")] |}.
Proof.
  apply (predict_forward_failure Sample.cfg
           (Sample.collab (Ok (JNum 0)) false true (Ok tt) (Ok []))
           Sample.registry_active "rf_model" _ Sample.rf_active
           (JArr [JNum 5; JNum 3; JNum 1; JNum 0]) (JNum 4));
    reflexivity.
Defined.

(** C9.  When the model is active and the request body is absent, is not
    valid JSON, or is an object without the key [input], [predict] calls
    the model with [features = None] and answers from what the model
    returns or raises there; the request is not rejected beforehand. *)
Theorem predict_without_input
    (cfg : config) (ext : collaborators) (r : registry) (model_name : string)
    (req : request) (am : active_model) :
  model_registry.get_active_model model_name r = Some am ->
  req_json req = None
  \/ (exists o, req_json req = Some (JObj o) /\ PyDict.get "input" o = None) ->
  (req_json req = None -> rest_api.predict_payload req = JObj [])
  /\ rest_api.payload_get_input (rest_api.predict_payload req) = Ok JNull
  /\ rest_api.predict cfg ext r model_name req =
     match model_detector_predict ext (am_model_path am) (am_model am) JNull with
     | Ok result =>
         match rest_api.predict_forward cfg ext model_name result with
         | Ok resp => Ok resp
         | Raise e => rest_api.predict_except ext model_name am e
         end
     | Raise e => rest_api.predict_except ext model_name am e
     end.
Proof.
  intros Hact Hreq.
  split; [intros Hnone; unfold rest_api.predict_payload, get_json_silent;
          by rewrite Hnone |].
  split; [by apply features_default_None |].
  rewrite (predict_active cfg ext r model_name req am JNull Hact
             (features_default_None req Hreq)).
  unfold rest_api.predict_try.
  by destruct (model_detector_predict ext (am_model_path am) (am_model am) JNull).
Qed.

Lemma predict_without_input_witness :
  rest_api.predict Sample.cfg
    (Sample.collab (Raise (Exn TypeError "'NoneType' object is not iterable"))
       true true (Ok tt) (Ok []))
    Sample.registry_active "rf_model"
    {| req_headers := []; req_json := Some (JObj [("features", JArr [JNum 1])]) |} =
  Ok {| status := 400;
        body := JObj [("model", JStr "rf_model"); ("status", JStr "error");
                      ("error", JStr "'NoneType' object is not iterable");
                      ("expected_input", am_model_info Sample.rf_active)] |}.
Proof.
  refine (eq_trans
            (proj2 (proj2
               (predict_without_input Sample.cfg
                  (Sample.collab
                     (Raise (Exn TypeError "'NoneType' object is not iterable"))
                     true true (Ok tt) (Ok []))
                  Sample.registry_active "rf_model"
                  {| req_headers := [];
                     req_json := Some (JObj [("features", JArr [JNum 1])]) |}
                  Sample.rf_active _ _))) _).
  - reflexivity.
  - right. exists [("features", JArr [JNum 1])]. split; reflexivity.
  - reflexivity.
Defined.

(** ** The deactivation endpoint *)

(** C8.  The deactivation endpoint always answers with status 200 and a
    body that carries the lifecycle manager's message only; two lifecycle
    managers that report the same message answer alike, whatever success
    flag each returns. *)
Theorem deactivate_response_ignores_success (ext : collaborators) (model_name : string) :
  status (rest_api.deactivate_model ext model_name) = 200
  /\ body (rest_api.deactivate_model ext model_name) =
     JObj [("message", JStr (snd (lifecycle_deactivate_model ext model_name)))]
  /\ forall ext' : collaborators,
       snd (lifecycle_deactivate_model ext' model_name) =
       snd (lifecycle_deactivate_model ext model_name) ->
       rest_api.deactivate_model ext' model_name =
       rest_api.deactivate_model ext model_name.
Proof.
  unfold rest_api.deactivate_model.
  destruct (lifecycle_deactivate_model ext model_name) as [success message] eqn:E.
  repeat split. intros ext' Hmsg.
  destruct (lifecycle_deactivate_model ext' model_name) as [success' message'].
  simpl in Hmsg. by subst.
Qed.

Lemma deactivate_response_ignores_success_witness :
  fst (lifecycle_deactivate_model
         (Sample.collab (Ok JNull) true false (Ok tt) (Ok [])) "rf_model") = false
  /\ fst (lifecycle_deactivate_model
            (Sample.collab (Ok JNull) true true (Ok tt) (Ok [])) "rf_model") = true
  /\ rest_api.deactivate_model
       (Sample.collab (Ok JNull) true false (Ok tt) (Ok [])) "rf_model" =
     rest_api.deactivate_model
       (Sample.collab (Ok JNull) true true (Ok tt) (Ok [])) "rf_model".
Proof.
  split; [reflexivity |]. split; [reflexivity |].
  apply (proj2 (proj2 (deactivate_response_ignores_success
                         (Sample.collab (Ok JNull) true true (Ok tt) (Ok []))
                         "rf_model"))).
  reflexivity.
Defined.

(** ** Shutdown *)

Section cleanup_facts.
Variable cfg : config.
Variable ext : collaborators.

(** Whatever the consumer does, stopping it neither raises nor ends the
    handler: it only adds to the log. *)
Lemma cleanup_consumers_kafka_failure e :
  INPUT_DATA_SOURCE cfg = "kafka" ->
  stop_kafka_consumer ext = Raise e ->
  rest_api.cleanup_consumers cfg ext =
  [rest_api.log ERROR ("[SHUTDOWN] Failed to stop Kafka consumer: " ++ exn_str e)].
Proof.
  intros Hsrc Hstop. unfold rest_api.cleanup_consumers. by rewrite Hsrc, Hstop.
Qed.

Lemma cleanup_consumers_mqtt_failure e :
  INPUT_DATA_SOURCE cfg = "mqtt" ->
  stop_mqtt_consumer ext = Raise e ->
  rest_api.cleanup_consumers cfg ext =
  [rest_api.log ERROR ("[SHUTDOWN] Failed to stop MQTT consumer: " ++ exn_str e)].
Proof.
  intros Hsrc Hstop. unfold rest_api.cleanup_consumers. by rewrite Hsrc, Hstop.
Qed.

Lemma cleanup_container_failure c e :
  container_remove c = Raise e ->
  rest_api.cleanup_container c =
  rest_api.log ERROR
    ("[SHUTDOWN] Failed to stop " ++ container_name c ++ ": " ++ exn_str e).
Proof. intros Hrm. unfold rest_api.cleanup_container. by rewrite Hrm. Qed.

Lemma cleanup_log containers :
  list_managed_containers ext = Ok containers ->
  fst (rest_api.cleanup cfg ext) =
  ([rest_api.log INFO "[SHUTDOWN] Starting cleanup..."] ++
   rest_api.cleanup_consumers cfg ext ++
   [rest_api.log INFO "[SHUTDOWN] Stopping TF Serving containers..."] ++
   map rest_api.cleanup_container containers ++
   [rest_api.log INFO "[SHUTDOWN] Cleanup complete"])%list.
Proof.
  intros Hls. unfold rest_api.cleanup. rewrite Hls. simpl.
  by rewrite <- !app_assoc.
Qed.
End cleanup_facts.

(** Once [list_managed_containers()] has returned its list, [cleanup]
    ends in [sys.exit(0)] whatever stopping the consumer and removing each
    container do: a consumer that fails to stop and every container that
    fails to be removed leave an ERROR record, every container of the list
    is handled in turn, and the last record is "Cleanup complete". *)
Lemma cleanup_never_raises
    (cfg : config) (ext : collaborators) (containers : list container) :
  list_managed_containers ext = Ok containers ->
  snd (rest_api.cleanup cfg ext) = SystemExit 0
  /\ (exists before,
        fst (rest_api.cleanup cfg ext) =
        (before ++ map rest_api.cleanup_container containers ++
         [rest_api.log INFO "[SHUTDOWN] Cleanup complete"])%list)
  /\ (forall e,
        INPUT_DATA_SOURCE cfg = "kafka" ->
        stop_kafka_consumer ext = Raise e ->
        rest_api.log ERROR ("[SHUTDOWN] Failed to stop Kafka consumer: " ++ exn_str e)
          ∈ fst (rest_api.cleanup cfg ext))
  /\ (forall e,
        INPUT_DATA_SOURCE cfg = "mqtt" ->
        stop_mqtt_consumer ext = Raise e ->
        rest_api.log ERROR ("[SHUTDOWN] Failed to stop MQTT consumer: " ++ exn_str e)
          ∈ fst (rest_api.cleanup cfg ext))
  /\ (forall c e,
        c ∈ containers ->
        container_remove c = Raise e ->
        rest_api.log ERROR
          ("[SHUTDOWN] Failed to stop " ++ container_name c ++ ": " ++ exn_str e)
          ∈ fst (rest_api.cleanup cfg ext)).
Proof.
  intros Hls. pose proof (cleanup_log cfg ext containers Hls) as Hlog.
  split; [unfold rest_api.cleanup; by rewrite Hls |].
  split.
  { exists ([rest_api.log INFO "[SHUTDOWN] Starting cleanup..."] ++
            rest_api.cleanup_consumers cfg ext ++
            [rest_api.log INFO "[SHUTDOWN] Stopping TF Serving containers..."])%list.
    rewrite Hlog. by rewrite <- !app_assoc. }
  rewrite Hlog. repeat split.
  - intros e Hsrc Hstop.
    rewrite (cleanup_consumers_kafka_failure cfg ext e Hsrc Hstop).
    apply elem_of_app; right. apply elem_of_app; left. apply list_elem_of_singleton.
    reflexivity.
  - intros e Hsrc Hstop.
    rewrite (cleanup_consumers_mqtt_failure cfg ext e Hsrc Hstop).
    apply elem_of_app; right. apply elem_of_app; left. apply list_elem_of_singleton.
    reflexivity.
  - intros c e Hc Hrm.
    do 3 (apply elem_of_app; right). apply elem_of_app; left.
    rewrite <- (cleanup_container_failure c e Hrm).
    by apply list_elem_of_fmap_2.
Qed.

Lemma cleanup_never_raises_witness :
  rest_api.cleanup Sample.cfg
    (Sample.collab (Ok JNull) true true
       (Raise (Exn OtherException "consumer not running"))
       (Ok [ {| container_name := "tf_serving_fire";
                container_remove := Raise (Exn OtherException "409 Conflict") |};
             {| container_name := "tf_serving_smoke";
                container_remove := Ok tt |} ])) =
  ([ rest_api.log INFO "[SHUTDOWN] Starting cleanup...";
     rest_api.log ERROR "[SHUTDOWN] Failed to stop Kafka consumer: consumer not running";
     rest_api.log INFO "[SHUTDOWN] Stopping TF Serving containers...";
     rest_api.log ERROR "[SHUTDOWN] Failed to stop tf_serving_fire: 409 Conflict";
     rest_api.log INFO "[SHUTDOWN] Stopped tf_serving_smoke";
     rest_api.log INFO "[SHUTDOWN] Cleanup complete" ],
   SystemExit 0).
Proof.
  pose proof (cleanup_never_raises Sample.cfg
    (Sample.collab (Ok JNull) true true
       (Raise (Exn OtherException "consumer not running"))
       (Ok [ {| container_name := "tf_serving_fire";
                container_remove := Raise (Exn OtherException "409 Conflict") |};
             {| container_name := "tf_serving_smoke";
                container_remove := Ok tt |} ]))
    _ eq_refl) as [Hexit _].
  apply injective_projections; [reflexivity | exact Hexit].
Defined.

(** C4.  The shutdown handler does raise past itself.  With the Kafka
    source, a consumer that fails to stop is caught and logged; when
    [tf_serving_manager.list_managed_containers()], which is called
    outside any [try], then raises, that exception leaves [cleanup]:
    "Cleanup complete" is not logged and [sys.exit(0)] is not reached. *)
Theorem cleanup_raises_past_handler :
  INPUT_DATA_SOURCE Sample.cfg = "kafka"
  /\ rest_api.cleanup Sample.cfg
       (Sample.collab (Ok JNull) true true
          (Raise (Exn OtherException "consumer not running"))
          (Raise (Exn OtherException "Error while fetching server API version"))) =
     ([ rest_api.log INFO "[SHUTDOWN] Starting cleanup...";
        rest_api.log ERROR "[SHUTDOWN] Failed to stop Kafka consumer: consumer not running";
        rest_api.log INFO "[SHUTDOWN] Stopping TF Serving containers..." ],
      Propagates (Exn OtherException "Error while fetching server API version")).
Proof. split; reflexivity. Qed.

(** ** The webhook *)

(** The webhook hands every push to the push handler with the literal
    filter [refs/heads/main]; the configuration is not consulted. *)
Lemma github_webhook_push (ext : collaborators) (req : request) (payload : json) :
  headers_get "X-GitHub-Event" (req_headers req) = Some "push" ->
  req_json req = Some payload ->
  rest_api.github_webhook ext req =
  (Ok {| status := 200; body := JObj [("status", JStr "processed")] |},
   handle_push_event ext payload "refs/heads/main").
Proof.
  intros Hev Hjson. unfold rest_api.github_webhook, get_json.
  rewrite Hev, Hjson. reflexivity.
Qed.

(** C5.  With the deployment configured for branch [dev], a push to
    [refs/heads/dev] that adds a model produces no sync event, and the
    same push to [refs/heads/main], which is not the configured branch,
    produces one: the webhook filters on the fixed branch [main], not on
    [GITHUB_BRANCH]. *)
Theorem webhook_filters_on_main_only :
  GITHUB_BRANCH Sample.cfg_dev = "dev"
  /\ github_client.list_repo_root Sample.cfg_dev
       {| gh_contents := fun ref _ => Raise (Exn HTTPError ref);
          gh_download := fun _ => Raise (Exn HTTPError "") |} =
     Raise (Exn HTTPError "dev")
  /\ snd (rest_api.github_webhook
            (Sample.collab (Ok JNull) true true (Ok tt) (Ok []))
            (Sample.push_request "refs/heads/dev" ["models/rf_model.pkl"])) = []
  /\ snd (rest_api.github_webhook
            (Sample.collab (Ok JNull) true true (Ok tt) (Ok []))
            (Sample.push_request "refs/heads/main" ["models/rf_model.pkl"])) =
     [ {| changeType := added; path := "models/rf_model.pkl" |} ].
Proof. repeat split; reflexivity. Qed.

(** ** Materialising a model *)

Section disk_facts.
Variable gh : github.

Lemma only_downloads_refl fs : only_downloads gh fs fs.
Proof. intros q. by left. Qed.

Lemma only_downloads_trans fs1 fs2 fs3 :
  only_downloads gh fs1 fs2 -> only_downloads gh fs2 fs3 -> only_downloads gh fs1 fs3.
Proof.
  intros H12 H23 q. destruct (H23 q) as [H | H].
  - rewrite H. apply H12.
  - by right.
Qed.

Lemma only_downloads_mkdir_entry fs name :
  only_downloads gh fs (<[name := Dir]> fs).
Proof.
  intros q. destruct (decide (name = q)) as [-> | Hne].
  - rewrite lookup_insert_eq. right. by left.
  - rewrite lookup_insert_ne by done. by left.
Qed.

Lemma only_downloads_write_entry fs p url content :
  gh_download gh url = Ok content ->
  only_downloads gh fs (<[p := File content]> fs).
Proof.
  intros Hdl q. destruct (decide (p = q)) as [-> | Hne].
  - rewrite lookup_insert_eq. right. right. by exists url, content.
  - rewrite lookup_insert_ne by done. by left.
Qed.

(** Rules for the actions of [IO]. *)

Lemma downloads_only_ret {A} (a : A) : downloads_only gh (mret a).
Proof. intros fs. apply only_downloads_refl. Qed.

Lemma downloads_only_raise {A} e : downloads_only gh (@raise A e).
Proof. intros fs. apply only_downloads_refl. Qed.

Lemma downloads_only_lift {A} (r : pyresult A) : downloads_only gh (lift r).
Proof. intros fs. apply only_downloads_refl. Qed.

Lemma downloads_only_bind {A B} (m : IO A) (f : A -> IO B) :
  downloads_only gh m -> (forall a, downloads_only gh (f a)) ->
  downloads_only gh (m ≫= f).
Proof.
  intros Hm Hf fs. unfold mbind, IO_bind. specialize (Hm fs).
  destruct (m fs) as [[a | e] fs']; simpl in *; [| done].
  eapply only_downloads_trans; [exact Hm | apply Hf].
Qed.

Lemma downloads_only_try_except {A} (m : IO A) sel (h : exn -> IO A) :
  downloads_only gh m -> (forall e, downloads_only gh (h e)) ->
  downloads_only gh (try_except m sel h).
Proof.
  intros Hm Hh fs. unfold try_except. specialize (Hm fs).
  destruct (m fs) as [[a | e] fs']; simpl in *; [done |].
  destruct (sel e); [| done].
  eapply only_downloads_trans; [exact Hm | apply Hh].
Qed.

Lemma downloads_only_mkdir name : downloads_only gh (os.mkdir name).
Proof.
  intros fs. unfold os.mkdir.
  destruct (negb (PyStr.nonempty name)); [apply only_downloads_refl |].
  destruct (os.is_root name); [apply only_downloads_refl |].
  destruct (fs !! name); [apply only_downloads_refl |].
  destruct (fs !! PyStr.rstrip name os_path.sep); [apply only_downloads_refl |].
  destruct (os.check_parent fs (PyStr.rstrip name os_path.sep)); simpl;
    [apply only_downloads_mkdir_entry | apply only_downloads_refl].
Qed.

Lemma downloads_only_makedirs_rec n name : downloads_only gh (os.makedirs_rec n name).
Proof.
  revert name. induction n as [|n IH]; intros name; [apply downloads_only_raise |].
  intros fs. cbn [os.makedirs_rec].
  destruct (os_path.split name) as [head tail].
  destruct (if negb (PyStr.nonempty tail) then os_path.split head else (head, tail))
    as [head' tail'].
  refine (downloads_only_bind _ _ _ _ fs).
  - case_match.
    + apply downloads_only_bind; [| intros; apply downloads_only_ret].
      apply downloads_only_try_except; [apply IH |].
      intros; apply downloads_only_ret.
    + apply downloads_only_ret.
  - intros [|]; [apply downloads_only_ret |].
    apply downloads_only_try_except; [apply downloads_only_mkdir |].
    intros e fs'. destruct (os.isdir fs' name); apply only_downloads_refl.
Qed.

Lemma downloads_only_makedirs name : downloads_only gh (os.makedirs name).
Proof. apply downloads_only_makedirs_rec. Qed.

Lemma downloads_only_write_file p url content :
  gh_download gh url = Ok content -> downloads_only gh (os.write_file p content).
Proof.
  intros Hdl fs. unfold os.write_file.
  assert (only_downloads gh fs
            (snd (if negb (PyStr.nonempty p) then (Raise (Exn FileNotFoundError p), fs)
                  else if PyStr.endswith p os_path.sep then
                    match fs !! PyStr.rstrip p os_path.sep with
                    | Some (File _) => (Raise (Exn NotADirectoryError p), fs)
                    | _ => (Raise (Exn IsADirectoryError p), fs)
                    end
                  else match os.check_parent fs p with
                       | Ok _ => (Ok tt, <[p := File content]> fs)
                       | Raise e => (Raise e, fs)
                       end))) as Hrest.
  { destruct (negb (PyStr.nonempty p)); [apply only_downloads_refl |].
    destruct (PyStr.endswith p os_path.sep);
      [repeat case_match; apply only_downloads_refl |].
    destruct (os.check_parent fs p); simpl;
      [by eapply only_downloads_write_entry | apply only_downloads_refl]. }
  destruct (fs !! p) as [[c |] |]; [exact Hrest | apply only_downloads_refl | exact Hrest].
Qed.
End disk_facts.

Section download_facts.
Variable cfg : config.
Variable gh : github.

Local Abbreviation download_file := (github_client.download_file gh).
Local Abbreviation download_folder := (github_client.download_folder cfg gh).
Local Abbreviation download_folder_body := (github_client.download_folder_body gh).

Lemma downloads_only_download_file url local_path :
  downloads_only gh (download_file url local_path).
Proof.
  unfold github_client.download_file. intros fs.
  unfold mbind at 1, IO_bind, lift.
  destruct (gh_download gh url) as [content | e] eqn:Hdl;
    [| apply only_downloads_refl].
  refine (downloads_only_bind gh _ _ _ _ fs).
  - apply downloads_only_makedirs.
  - intros _. by eapply downloads_only_write_file.
Qed.

Lemma downloads_only_for_items body its :
  (forall it, downloads_only gh (body it)) ->
  downloads_only gh (github_client.for_items body its).
Proof.
  intros Hbody. induction its as [|it rest IH]; simpl.
  - apply downloads_only_ret.
  - apply downloads_only_bind; [apply Hbody | intros _; apply IH].
Qed.

Lemma downloads_only_download_folder_body recurse repo_path local_path it :
  (forall rp lp, downloads_only gh (recurse rp lp)) ->
  downloads_only gh (download_folder_body recurse repo_path local_path it).
Proof.
  intros Hrec. unfold github_client.download_folder_body.
  repeat case_match;
    auto using downloads_only_download_file, downloads_only_raise.
Qed.

Lemma downloads_only_download_folder depth repo_path local_path :
  downloads_only gh (download_folder depth repo_path local_path).
Proof.
  revert repo_path local_path.
  induction depth as [|depth IH]; intros repo_path local_path; simpl.
  - apply downloads_only_raise.
  - apply downloads_only_bind; [apply downloads_only_lift |].
    intros items. apply downloads_only_bind; [apply downloads_only_makedirs |].
    intros _. destruct items as [it | its]; [apply downloads_only_raise |].
    apply downloads_only_for_items. intros it.
    by apply downloads_only_download_folder_body.
Qed.

(** The recursion depth matters only for [RecursionError]: a download
    that succeeds does the same with any larger depth. *)

Lemma for_items_mono (body body' : item -> IO unit) its fs fs' :
  (forall it fs fs', body it fs = (Ok tt, fs') -> body' it fs = (Ok tt, fs')) ->
  github_client.for_items body its fs = (Ok tt, fs') ->
  github_client.for_items body' its fs = (Ok tt, fs').
Proof.
  intros Hbody. revert fs. induction its as [|it rest IH]; intros fs; simpl; [done |].
  unfold mbind, IO_bind.
  destruct (body it fs) as [[[] | e] fs1] eqn:Hb; [| discriminate].
  rewrite (Hbody _ _ _ Hb). apply IH.
Qed.

Lemma download_folder_depth_mono depth depth' repo_path local_path fs fs' :
  (depth <= depth')%nat ->
  download_folder depth repo_path local_path fs = (Ok tt, fs') ->
  download_folder depth' repo_path local_path fs = (Ok tt, fs').
Proof.
  revert depth' repo_path local_path fs fs'.
  induction depth as [|depth IH]; intros depth' repo_path local_path fs fs' Hle;
    [discriminate |].
  destruct depth' as [|depth']; [lia |].
  simpl. unfold mbind at 1 3, IO_bind, lift.
  destruct (github_client.github_api_get cfg gh repo_path) as [items | e];
    [| discriminate].
  unfold mbind at 1 2, IO_bind.
  destruct (os.makedirs local_path fs) as [[[] | e] fs1]; [| discriminate].
  destruct items as [it | its]; [discriminate |].
  apply for_items_mono. intros it fs2 fs3.
  unfold github_client.download_folder_body.
  repeat case_match; try done. apply IH. lia.
Qed.

(** [shutil.rmtree] on a directory leaves nothing at or below it and
    touches nothing else. *)
Lemma rmtree_dir d (fs : filesystem) :
  fs !! d = Some Dir ->
  exists fs0,
    shutil.rmtree d fs = (Ok tt, fs0)
    /\ (forall q, os.at_or_under d q = true -> fs0 !! q = None)
    /\ (forall q, os.at_or_under d q = false -> fs0 !! q = fs !! q).
Proof.
  intros Hd. unfold shutil.rmtree. rewrite Hd. eexists. split; [reflexivity |].
  split; intros q Hq.
  - apply map_lookup_filter_None. right. intros x _. simpl. by rewrite Hq.
  - destruct (fs !! q) as [x |] eqn:Hx.
    + by apply map_lookup_filter_Some.
    + apply map_lookup_filter_None. by left.
Qed.
End download_facts.

(** C2.  For a model entry whose repository path answers with a directory
    listing and whose [model_name] is a single path component (as the
    names of a listing are), the destination is [/models/<model_name>];
    [download_github_model] first removes it when it exists as a
    directory, and then runs [download_folder] on a disk that holds
    nothing at or below the destination and is unchanged elsewhere.  It
    returns the destination path exactly when that download succeeds
    (with any larger recursion depth as well), and every file found at or
    below the destination afterwards holds bytes served for a download
    URL during the call. *)
Theorem download_directory_model_overwrites
    (cfg : config) (gh : github) (depth : nat) (model_entry : metadata)
    (fs : filesystem) (repo_path model_name : string) (its : list item) :
  PyDict.get "model_path" model_entry = Some repo_path ->
  PyDict.get "model_name" model_entry = Some model_name ->
  github_client.github_api_get cfg gh repo_path = Ok (JsonList its) ->
  path_component model_name = true ->
  let dest_dir := os_path.join "/models" model_name in
  fs !! dest_dir = Some Dir
  \/ (os.exists_ fs dest_dir = false
      /\ forall q, os.at_or_under dest_dir q = true -> fs !! q = None) ->
  dest_dir = "/models/" ++ model_name
  /\ exists fs0 : filesystem,
    (forall q, os.at_or_under dest_dir q = true -> fs0 !! q = None)
    /\ (forall q, os.at_or_under dest_dir q = false -> fs0 !! q = fs !! q)
    /\ github_client.download_github_model cfg gh depth model_entry fs =
       (match fst (github_client.download_folder cfg gh depth repo_path dest_dir fs0) with
        | Ok _ => Ok dest_dir
        | Raise e => Raise e
        end,
        snd (github_client.download_folder cfg gh depth repo_path dest_dir fs0))
    /\ (forall fs' depth',
          github_client.download_folder cfg gh depth repo_path dest_dir fs0 = (Ok tt, fs') ->
          (depth <= depth')%nat ->
          github_client.download_github_model cfg gh depth' model_entry fs =
          (Ok dest_dir, fs'))
    /\ (forall q content,
          os.at_or_under dest_dir q = true ->
          snd (github_client.download_github_model cfg gh depth model_entry fs) !! q =
          Some (File content) ->
          exists url, gh_download gh url = Ok content).
Proof.
  intros Hpath Hname Hinfo Hplain dest_dir Hdest.
  split.
  { unfold path_component in Hplain.
    apply andb_true_iff in Hplain as [Hplain _].
    apply andb_true_iff in Hplain as [Hplain _].
    apply andb_true_iff in Hplain as [_ Hsep].
    apply negb_true_iff in Hsep.
    unfold dest_dir, os_path.join. destruct model_name as [|a name]; [done |].
    simpl in Hsep. apply orb_false_iff in Hsep as [Ha _].
    unfold os_path.sep in *. simpl. by rewrite Ha. }
  assert (exists fs0 : filesystem,
            (forall q, os.at_or_under dest_dir q = true -> fs0 !! q = None)
            /\ (forall q, os.at_or_under dest_dir q = false -> fs0 !! q = fs !! q)
            /\ (if os.exists_ fs dest_dir
                then shutil.rmtree dest_dir fs else (Ok tt, fs)) = (Ok tt, fs0))
    as (fs0 & Hclear & Hkeep & Hrm).
  { destruct Hdest as [Hdir | [Hex Habs]].
    - destruct (rmtree_dir dest_dir fs Hdir) as (fs0 & Hrm & Hclear & Hkeep).
      exists fs0. split; [done |]. split; [done |].
      unfold os.exists_, os.stat. rewrite Hdir. by rewrite orb_true_r.
    - exists fs. rewrite Hex. done. }
  assert (forall d,
            github_client.download_github_model cfg gh d model_entry fs =
            (match fst (github_client.download_folder cfg gh d repo_path dest_dir fs0) with
             | Ok _ => Ok dest_dir
             | Raise e => Raise e
             end,
             snd (github_client.download_folder cfg gh d repo_path dest_dir fs0)))
    as Hrun.
  { intros d. unfold github_client.download_github_model, PyDict.getitem.
    rewrite Hpath. unfold mbind at 1, IO_bind, lift.
    unfold mbind at 1, IO_bind. rewrite Hinfo.
    rewrite Hname. unfold mbind at 1, IO_bind.
    unfold mbind at 1, IO_bind. fold dest_dir. rewrite Hrm.
    unfold mbind at 1, IO_bind.
    by destruct (github_client.download_folder cfg gh d repo_path dest_dir fs0)
      as [[[] | e] fs']. }
  exists fs0. split; [exact Hclear |]. split; [exact Hkeep |].
  split; [apply Hrun |]. split.
  - intros fs' depth' Hok Hle. rewrite Hrun.
    by rewrite (download_folder_depth_mono cfg gh depth depth' _ _ _ _ Hle Hok).
  - intros q content Hq. rewrite Hrun. simpl. intros Hfile.
    destruct (downloads_only_download_folder cfg gh depth repo_path dest_dir fs0 q)
      as [Hsame | [Hdir | (url & c & Hdl & Hnew)]].
    + rewrite Hsame, (Hclear q Hq) in Hfile. discriminate.
    + rewrite Hdir in Hfile. discriminate.
    + rewrite Hnew in Hfile. injection Hfile as <-. by exists url.
Qed.

Lemma download_directory_model_overwrites_witness :
  Sample.fs_old !! "/models/fire_pytorch" = Some Dir
  /\ Sample.fs_old !! "/models/fire_pytorch/old.bin" = Some (File "stale weights")
  /\ fst (github_client.download_github_model Sample.cfg_github Sample.gh_fire 3
            Sample.fire_entry Sample.fs_old) = Ok "/models/fire_pytorch"
  /\ snd (github_client.download_github_model Sample.cfg_github Sample.gh_fire 3
            Sample.fire_entry Sample.fs_old) !! "/models/fire_pytorch/old.bin" = None
  /\ snd (github_client.download_github_model Sample.cfg_github Sample.gh_fire 3
            Sample.fire_entry Sample.fs_old) !! "/models/fire_pytorch/config/labels.json" =
     Some (File "fire,smoke")
  /\ exists url, gh_download Sample.gh_fire url = Ok "fresh weights".
Proof.
  split; [reflexivity |]. split; [reflexivity |].
  split; [vm_compute; reflexivity |]. split; [vm_compute; reflexivity |].
  split; [vm_compute; reflexivity |].
  destruct (download_directory_model_overwrites Sample.cfg_github Sample.gh_fire 3
              Sample.fire_entry Sample.fs_old "models/fire_pytorch" "fire_pytorch"
              [Sample.file_item "weights.bin"; Sample.dir_item "config"]
              eq_refl eq_refl eq_refl eq_refl (or_introl eq_refl))
    as (_ & fs0 & _ & _ & _ & _ & Hfresh).
  apply (Hfresh "/models/fire_pytorch/weights.bin" "fresh weights").
  - reflexivity.
  - vm_compute. reflexivity.
Defined.

(** * Further properties *)

(** ** Names and paths *)

Module PathFacts.

Lemma take_drop n s : PyStr.take n s ++ PyStr.drop n s = s.
Proof.
  revert s. induction n as [|n IH]; intros [|a s]; simpl; try done.
  change (String a (PyStr.take n s ++ PyStr.drop n s) = String a s).
  f_equal. apply IH.
Qed.

Lemma drop_add n m s : PyStr.drop (n + m) s = PyStr.drop m (PyStr.drop n s).
Proof.
  revert s. induction n as [|n IH]; intros s; simpl; [done |].
  destruct s as [|a s]; simpl; [by destruct m | apply IH].
Qed.

Lemma str_contains_drop c n s :
  str_contains c s = false -> str_contains c (PyStr.drop n s) = false.
Proof.
  revert s. induction n as [|n IH]; intros [|a s]; simpl; try done.
  intros H. apply orb_false_iff in H as [_ H]. by apply IH.
Qed.

(** [rfind] returns [last] exactly when the character does not occur;
    otherwise it points at an occurrence that no other one follows. *)
Lemma rfind_from_spec c s i last :
  (PyStr.rfind_from s c i last = last /\ str_contains c s = false)
  \/ (i <= PyStr.rfind_from s c i last < i + Z.of_nat (String.length s)
      /\ exists rest,
           PyStr.drop (Z.to_nat (PyStr.rfind_from s c i last - i)) s = String c rest
           /\ str_contains c rest = false).
Proof.
  revert i last. induction s as [|a s IH]; intros i last; simpl; [by left |].
  destruct (IH (i + 1) (if Ascii.eqb a c then i else last))
    as [[Hr Hno] | (Hrange & rest & Hdrop & Hno)].
  - rewrite Hr. destruct (Ascii.eqb a c) eqn:Hac.
    + right. split; [lia |]. exists s. rewrite Z.sub_diag. simpl.
      apply Ascii.eqb_eq in Hac. by subst.
    + left. by rewrite Hno.
  - right. split; [lia |]. exists rest. split; [| done].
    replace (Z.to_nat (PyStr.rfind_from s c (i + 1)
                         (if Ascii.eqb a c then i else last) - i))
      with (S (Z.to_nat (PyStr.rfind_from s c (i + 1)
                           (if Ascii.eqb a c then i else last) - (i + 1))))
      by lia.
    exact Hdrop.
Qed.

Lemma rfind_absent c s :
  str_contains c s = false -> PyStr.rfind s c = -1.
Proof.
  intros Hno. unfold PyStr.rfind.
  destruct (rfind_from_spec c s 0 (-1)) as [[Hr _] | (_ & rest & Hdrop & _)];
    [done |].
  apply (str_contains_drop c (Z.to_nat (PyStr.rfind_from s c 0 (-1) - 0))) in Hno.
  rewrite Hdrop in Hno. simpl in Hno. by rewrite Ascii.eqb_refl in Hno.
Qed.

Lemma rfind_lower c s : -1 <= PyStr.rfind s c.
Proof.
  unfold PyStr.rfind.
  destruct (rfind_from_spec c s 0 (-1)) as [[Hr _] | (Hrange & _)]; lia.
Qed.

Lemma _splitext_loop_cases n p f d :
  os_path._splitext_loop n p f d = (p, EmptyString)
  \/ os_path._splitext_loop n p f d =
     (PyStr.take (Z.to_nat d) p, PyStr.drop (Z.to_nat d) p).
Proof.
  revert f. induction n as [|n IH]; intros f; simpl; [by left |].
  repeat case_match; auto.
Qed.

Lemma append_empty_r s : s ++ EmptyString = s.
Proof.
  induction s as [|a s IH]; [done |].
  change (String a (s ++ EmptyString) = String a s). f_equal. apply IH.
Qed.

End PathFacts.

(** X1.  [os.path.splitext] as the listing and the local initialization
    use it: root and extension put together give the name back; the
    extension is empty, or it is a dot followed by characters that are
    neither a dot nor a slash; and a name without a dot is its own root. *)
Theorem splitext_root_and_extension (p : string) :
  fst (os_path.splitext p) ++ snd (os_path.splitext p) = p
  /\ (snd (os_path.splitext p) = EmptyString
      \/ exists rest,
           snd (os_path.splitext p) = String "." rest
           /\ str_contains "." rest = false
           /\ str_contains "/" rest = false)
  /\ (str_contains "." p = false -> os_path.splitext p = (p, EmptyString)).
Proof.
  unfold os_path.splitext, os_path.extsep, os_path.sep.
  pose proof (PathFacts._splitext_loop_cases (S (String.length p)) p
                (PyStr.rfind p "/" + 1) (PyStr.rfind p ".")) as Hloop.
  pose proof (PathFacts.rfind_lower "/" p) as Hsep.
  set (loop := os_path._splitext_loop _ _ _ _) in *.
  split; [| split].
  - destruct (PyStr.rfind p "." >? PyStr.rfind p "/");
      [| apply PathFacts.append_empty_r].
    destruct Hloop as [-> | ->]; cbn [fst snd].
    + apply PathFacts.append_empty_r.
    + apply PathFacts.take_drop.
  - destruct (PyStr.rfind p "." >? PyStr.rfind p "/") eqn:Hgt; [| by left].
    apply Z.gtb_lt in Hgt.
    destruct Hloop as [-> | ->]; cbn [fst snd]; [by left |].
    right. unfold PyStr.rfind in *.
    destruct (PathFacts.rfind_from_spec "." p 0 (-1))
      as [[Hr _] | (Hrange & rest & Hdrop & Hno)]; [lia |].
    rewrite Z.sub_0_r in Hdrop. exists rest. split; [done |]. split; [done |].
    destruct (PathFacts.rfind_from_spec "/" p 0 (-1))
      as [[Hr Hnone] | (Hrange' & rest' & Hdrop' & Hno')].
    + apply (PathFacts.str_contains_drop "/" (Z.to_nat (PyStr.rfind_from p "." 0 (-1))))
        in Hnone.
      rewrite Hdrop in Hnone. simpl in Hnone. done.
    + rewrite Z.sub_0_r in Hdrop'.
      set (d := PyStr.rfind_from p "." 0 (-1)) in *.
      set (s := PyStr.rfind_from p "/" 0 (-1)) in *.
      assert (PyStr.drop (Z.to_nat d) p =
              PyStr.drop (Z.to_nat (d - s - 1)) rest') as Hsuffix.
      { replace (Z.to_nat d) with (Z.to_nat s + (1 + Z.to_nat (d - s - 1)))%nat by lia.
        rewrite PathFacts.drop_add, Hdrop'. done. }
      rewrite Hdrop in Hsuffix.
      apply (PathFacts.str_contains_drop "/" (Z.to_nat (d - s - 1))) in Hno'.
      rewrite <- Hsuffix in Hno'. simpl in Hno'. done.
  - intros Hno. rewrite (PathFacts.rfind_absent "." p Hno).
    destruct (-1 >? PyStr.rfind p "/") eqn:Hgt; [| done].
    apply Z.gtb_lt in Hgt. lia.
Qed.

Lemma splitext_root_and_extension_witness :
  str_contains "." "fire_pytorch" = false
  /\ os_path.splitext "fire_pytorch" = ("fire_pytorch", EmptyString).
Proof.
  split; [reflexivity |].
  apply (proj2 (proj2 (splitext_root_and_extension "fire_pytorch"))).
  reflexivity.
Defined.

(** ** Importing [github_client] *)

(** X2.  Importing [github_client] raises [RuntimeError] exactly when
    [GITHUB_REPO] is unset or empty.  Otherwise the branch is the value of
    [GITHUB_BRANCH] as it stands (an empty value included) and [main] only
    when the variable is unset, and the request headers carry
    [Authorization: token <t>] exactly when [GITHUB_TOKEN] is set to a
    non-empty [t], next to [Accept]. *)
Theorem import_module_environment (environ : PyDict.t string) :
  match github_client.import_module environ with
  | Raise e =>
      e = Exn RuntimeError "GITHUB_REPO is not set"
      /\ (os.getenv environ "GITHUB_REPO" = None
          \/ os.getenv environ "GITHUB_REPO" = Some EmptyString)
  | Ok mc =>
      os.getenv environ "GITHUB_REPO" = Some (github_client.mc_GITHUB_REPO mc)
      /\ github_client.mc_GITHUB_REPO mc <> EmptyString
      /\ github_client.mc_GITHUB_BRANCH mc =
         match os.getenv environ "GITHUB_BRANCH" with
         | Some b => b
         | None => "main"
         end
      /\ PyDict.get "Accept" (github_client.mc_HEADERS mc) =
         Some "application/vnd.github+json"
      /\ PyDict.get "Authorization" (github_client.mc_HEADERS mc) =
         match os.getenv environ "GITHUB_TOKEN" with
         | Some t => if PyStr.nonempty t then Some ("token " ++ t) else None
         | None => None
         end
  end.
Proof.
  unfold github_client.import_module, os.getenv_default, os.getenv.
  destruct (PyDict.get "GITHUB_REPO" environ) as [[|a repo] |]; simpl; auto.
  repeat split; try done;
    destruct (PyDict.get "GITHUB_TOKEN" environ) as [[|b t] |]; reflexivity.
Qed.

(** ** The GitHub listing *)

Section listing_facts.

Local Abbreviation gh_body := github_client.list_github_models_body.

(** Whether the listing registers an item at all. *)
Lemma gh_body_cases models it :
  (item_type it = "file"
   /\ gh_body models it =
      PyDict.set (fst (os_path.splitext (item_name it)))
        (github_client.github_descriptor (fst (os_path.splitext (item_name it))) it)
        models)
  \/ (item_type it = "dir"
      /\ gh_body models it =
         PyDict.set (item_name it)
           (github_client.github_descriptor (item_name it) it) models)
  \/ (item_type it <> "file" /\ item_type it <> "dir" /\ gh_body models it = models).
Proof.
  destruct (decide (item_type it = "file")) as [Hf | Hf].
  { left. split; [done |]. by apply gh_body_file. }
  destruct (decide (item_type it = "dir")) as [Hd | Hd].
  { right; left. split; [done |]. by apply gh_body_dir. }
  right; right. split; [done |]. split; [done |]. by apply gh_body_other.
Qed.

Lemma fold_gh_body_keys its models k :
  k ∈ PyDict.keys (fold_left gh_body its models) <->
  k ∈ PyDict.keys models
  \/ exists it, it ∈ its
       /\ ((item_type it = "file" /\ k = fst (os_path.splitext (item_name it)))
           \/ (item_type it = "dir" /\ k = item_name it)).
Proof.
  revert models. induction its as [|it its IH]; intros models; simpl.
  - split; [by left |]. intros [? | (it & Hit & _)]; [done |].
    by apply elem_of_nil in Hit.
  - rewrite IH. split.
    + intros [Hk | (it' & Hit' & Hkey)].
      * destruct (gh_body_cases models it)
          as [(Ht & Heq) | [(Ht & Heq) | (_ & _ & Heq)]]; rewrite Heq in Hk.
        -- apply PyDictFacts.elem_of_keys_set in Hk as [-> | Hk]; [| by left].
           right. exists it. split; [apply elem_of_cons; by left |]. left. done.
        -- apply PyDictFacts.elem_of_keys_set in Hk as [-> | Hk]; [| by left].
           right. exists it. split; [apply elem_of_cons; by left |]. right. done.
        -- by left.
      * right. exists it'. split; [apply elem_of_cons; by right | done].
    + intros [Hk | (it' & Hit' & Hkey)].
      * left. destruct (gh_body_cases models it)
          as [(Ht & Heq) | [(Ht & Heq) | (_ & _ & Heq)]]; rewrite Heq;
          try (apply PyDictFacts.elem_of_keys_set; by right). done.
      * apply elem_of_cons in Hit' as [-> | Hit']; [| right; by exists it'].
        left. destruct Hkey as [[Ht ->] | [Ht ->]].
        -- rewrite gh_body_file by done. apply PyDictFacts.elem_of_keys_set. by left.
        -- destruct (gh_body_cases models it)
             as [(Ht' & Heq) | [(Ht' & Heq) | (_ & Hd & _)]];
             [congruence | | done].
           rewrite Heq. apply PyDictFacts.elem_of_keys_set. by left.
Qed.

Lemma fold_gh_body_get its models k md :
  PyDict.get k (fold_left gh_body its models) = Some md ->
  PyDict.get k models = Some md
  \/ exists it, it ∈ its
       /\ md = github_client.github_descriptor k it
       /\ ((item_type it = "file" /\ k = fst (os_path.splitext (item_name it)))
           \/ (item_type it = "dir" /\ k = item_name it)).
Proof.
  revert models. induction its as [|it its IH]; intros models; simpl; [by left |].
  intros Hget. apply IH in Hget as [Hget | (it' & Hit' & Hmd & Hkey)].
  - destruct (gh_body_cases models it)
      as [(Ht & Heq) | [(Ht & Heq) | (_ & _ & Heq)]]; rewrite Heq in Hget.
    + destruct (decide (fst (os_path.splitext (item_name it)) = k)) as [<- | Hne].
      * rewrite PyDictFacts.get_set_eq in Hget. injection Hget as <-.
        right. exists it. split; [apply elem_of_cons; by left |].
        split; [done |]. by left.
      * rewrite PyDictFacts.get_set_ne in Hget by done. by left.
    + destruct (decide (item_name it = k)) as [<- | Hne].
      * rewrite PyDictFacts.get_set_eq in Hget. injection Hget as <-.
        right. exists it. split; [apply elem_of_cons; by left |].
        split; [done |]. by right.
      * rewrite PyDictFacts.get_set_ne in Hget by done. by left.
    + by left.
  - right. exists it'. split; [apply elem_of_cons; by right | done].
Qed.

Lemma len_set_le {V} k (v : V) d :
  (PyDict.len (PyDict.set k v d) <= S (PyDict.len d))%nat.
Proof.
  unfold PyDict.len.
  induction d as [|[k' v'] d IH]; simpl; [lia |].
  destruct (String.eqb k k'); simpl; lia.
Qed.

Lemma fold_gh_body_len its models :
  (PyDict.len (fold_left gh_body its models) <= PyDict.len models + List.length its)%nat.
Proof.
  revert models. induction its as [|it its IH]; intros models; simpl; [lia |].
  etrans; [apply IH |].
  destruct (gh_body_cases models it)
    as [(_ & Heq) | [(_ & Heq) | (_ & _ & Heq)]]; rewrite Heq;
    try (pose proof (len_set_le (fst (os_path.splitext (item_name it)))
                       (github_client.github_descriptor
                          (fst (os_path.splitext (item_name it))) it) models));
    try (pose proof (len_set_le (item_name it)
                       (github_client.github_descriptor (item_name it) it) models));
    lia.
Qed.

Lemma fold_gh_body_filter its models :
  fold_left gh_body its models =
  fold_left gh_body
    (filter (fun it => item_type it = "file" \/ item_type it = "dir") its) models.
Proof.
  revert models. induction its as [|it its IH]; intros models; [done |].
  rewrite filter_cons. case_decide as Hsup; simpl.
  - apply IH.
  - rewrite gh_body_other; [apply IH | tauto | tauto].
Qed.
End listing_facts.

(** X3.  When the models root answers with a list, [list_github_models]
    returns a dictionary whose keys are exactly the stripped names of the
    [file] items and the names of the [dir] items; items of any other type
    (symlinks, submodules) are ignored, so the result is the same as for
    the listing without them, and it never has more entries than the
    listing has items. *)
Theorem list_github_models_keys
    (cfg : config) (gh : github) (its : list item) :
  github_client.list_repo_root cfg gh = Ok (JsonList its) ->
  exists models,
    github_client.list_github_models cfg gh = Ok models
    /\ (forall k,
          k ∈ PyDict.keys models <->
          exists it, it ∈ its
            /\ ((item_type it = "file" /\ k = fst (os_path.splitext (item_name it)))
                \/ (item_type it = "dir" /\ k = item_name it)))
    /\ models =
       fold_left github_client.list_github_models_body
         (filter (fun it => item_type it = "file" \/ item_type it = "dir") its)
         PyDict.empty
    /\ (PyDict.len models <= List.length its)%nat.
Proof.
  intros Hroot. unfold github_client.list_github_models. rewrite Hroot. simpl.
  eexists. split; [reflexivity |]. split; [| split].
  - intros k. rewrite fold_gh_body_keys. split.
    + intros [Hk | Hk]; [by apply elem_of_nil in Hk | done].
    + by right.
  - apply fold_gh_body_filter.
  - apply (fold_gh_body_len its PyDict.empty).
Qed.

Lemma list_github_models_keys_witness :
  exists models,
    github_client.list_github_models Sample.cfg_github
      (Sample.gh_root [Sample.file_item "rf_model.pkl";
                       {| item_name := "latest"; item_type := "symlink";
                          item_download_url := "" |};
                       Sample.dir_item "fire_pytorch"]) = Ok models
    /\ PyDict.keys models = ["rf_model"; "fire_pytorch"].
Proof.
  destruct (list_github_models_keys Sample.cfg_github
              (Sample.gh_root [Sample.file_item "rf_model.pkl";
                               {| item_name := "latest"; item_type := "symlink";
                                  item_download_url := "" |};
                               Sample.dir_item "fire_pytorch"])
              _ eq_refl) as (models & Hrun & _ & Hfilter & _).
  exists models. split; [exact Hrun |]. rewrite Hfilter. reflexivity.
Defined.

(** X4.  Every entry [list_github_models] returns is stored under its own
    [model_name], has source [github], and carries the type and the
    repository path [models/<name>] of an item of the listing that is a
    file or a folder: [download_github_model] finds both keys it reads. *)
Theorem list_github_models_entries
    (cfg : config) (gh : github) (models : PyDict.t metadata)
    (k : string) (md : metadata) :
  github_client.list_github_models cfg gh = Ok models ->
  PyDict.get k models = Some md ->
  PyDict.getitem "model_name" md = Ok k
  /\ PyDict.getitem "source" md = Ok "github"
  /\ exists its it,
       github_client.list_repo_root cfg gh = Ok (JsonList its)
       /\ it ∈ its
       /\ (item_type it = "file" \/ item_type it = "dir")
       /\ PyDict.getitem "type" md = Ok (item_type it)
       /\ PyDict.getitem "model_path" md = Ok ("models/" ++ item_name it).
Proof.
  unfold github_client.list_github_models.
  destruct (github_client.list_repo_root cfg gh) as [[it0 | its] | e];
    simpl; try discriminate.
  intros [= <-] Hget.
  apply fold_gh_body_get in Hget as [Hget | (it & Hit & -> & Hkey)];
    [discriminate |].
  split; [reflexivity |]. split; [reflexivity |].
  exists its, it. split; [done |]. split; [done |].
  split; [destruct Hkey as [[? _] | [? _]]; auto |].
  split; reflexivity.
Qed.

Lemma list_github_models_entries_witness :
  github_client.list_github_models Sample.cfg_github
    (Sample.gh_root [Sample.file_item "rf_model.pkl"]) =
  Ok [("rf_model",
       github_client.github_descriptor "rf_model" (Sample.file_item "rf_model.pkl"))]
  /\ PyDict.getitem "model_name"
       (github_client.github_descriptor "rf_model" (Sample.file_item "rf_model.pkl")) =
     Ok "rf_model".
Proof.
  split; [reflexivity |].
  destruct (list_github_models_entries Sample.cfg_github
              (Sample.gh_root [Sample.file_item "rf_model.pkl"])
              [("rf_model",
                github_client.github_descriptor "rf_model"
                  (Sample.file_item "rf_model.pkl"))]
              "rf_model"
              (github_client.github_descriptor "rf_model"
                 (Sample.file_item "rf_model.pkl"))
              eq_refl eq_refl) as (Hname & _).
  exact Hname.
Defined.

(** ** Downloads never remove anything *)

(** Rules for an effect on the disk that stays within a preorder. *)
Section io_rules.
Variable R : filesystem -> filesystem -> Prop.
Hypothesis R_refl : forall fs, R fs fs.
Hypothesis R_trans : forall fs1 fs2 fs3, R fs1 fs2 -> R fs2 fs3 -> R fs1 fs3.

Lemma io_within_ret {A} (a : A) : io_within R (mret a).
Proof. intros fs. apply R_refl. Qed.

Lemma io_within_raise {A} e : io_within R (@raise A e).
Proof. intros fs. apply R_refl. Qed.

Lemma io_within_lift {A} (r : pyresult A) : io_within R (lift r).
Proof. intros fs. apply R_refl. Qed.

Lemma io_within_bind {A B} (m : IO A) (f : A -> IO B) :
  io_within R m -> (forall a, io_within R (f a)) -> io_within R (m ≫= f).
Proof.
  intros Hm Hf fs. unfold mbind, IO_bind. specialize (Hm fs).
  destruct (m fs) as [[a | e] fs']; simpl in *; [| done].
  eapply R_trans; [exact Hm | apply Hf].
Qed.

Lemma io_within_try_except {A} (m : IO A) sel (h : exn -> IO A) :
  io_within R m -> (forall e, io_within R (h e)) -> io_within R (try_except m sel h).
Proof.
  intros Hm Hh fs. unfold try_except. specialize (Hm fs).
  destruct (m fs) as [[a | e] fs']; simpl in *; [done |].
  destruct (sel e); [| done].
  eapply R_trans; [exact Hm | apply Hh].
Qed.

Lemma io_within_for_items body its :
  (forall it, io_within R (body it)) -> io_within R (github_client.for_items body its).
Proof.
  intros Hbody. induction its as [|it rest IH]; simpl.
  - apply io_within_ret.
  - apply io_within_bind; [apply Hbody | intros _; apply IH].
Qed.

(** [os.makedirs] stays within [R] as soon as creating one directory
    where nothing was does. *)
Hypothesis R_mkdir :
  forall fs name, fs !! name = None -> R fs (<[name := Dir]> fs).

Lemma io_within_mkdir name : io_within R (os.mkdir name).
Proof.
  intros fs. unfold os.mkdir.
  destruct (negb (PyStr.nonempty name)); [apply R_refl |].
  destruct (os.is_root name); [apply R_refl |].
  destruct (fs !! name); [apply R_refl |].
  destruct (fs !! PyStr.rstrip name os_path.sep) eqn:Hkey; [apply R_refl |].
  destruct (os.check_parent fs (PyStr.rstrip name os_path.sep)); simpl;
    [| apply R_refl].
  by apply R_mkdir.
Qed.

Lemma io_within_makedirs_rec n name : io_within R (os.makedirs_rec n name).
Proof.
  revert name. induction n as [|n IH]; intros name; [apply io_within_raise |].
  intros fs. cbn [os.makedirs_rec].
  destruct (os_path.split name) as [head tail].
  destruct (if negb (PyStr.nonempty tail) then os_path.split head else (head, tail))
    as [head' tail'].
  refine (io_within_bind _ _ _ _ fs).
  - case_match.
    + apply io_within_bind; [| intros; apply io_within_ret].
      apply io_within_try_except; [apply IH |].
      intros; apply io_within_ret.
    + apply io_within_ret.
  - intros [|]; [apply io_within_ret |].
    apply io_within_try_except; [apply io_within_mkdir |].
    intros e fs'. destruct (os.isdir fs' name); apply R_refl.
Qed.

Lemma io_within_makedirs name : io_within R (os.makedirs name).
Proof. apply io_within_makedirs_rec. Qed.
End io_rules.

Section keeps_nodes_facts.
Variable cfg : config.
Variable gh : github.

Lemma keeps_nodes_refl fs : keeps_nodes fs fs.
Proof. intros q. split; [done |]. intros content ?. by exists content. Qed.

Lemma keeps_nodes_trans fs1 fs2 fs3 :
  keeps_nodes fs1 fs2 -> keeps_nodes fs2 fs3 -> keeps_nodes fs1 fs3.
Proof.
  intros H12 H23 q. destruct (H12 q) as [Hd12 Hf12], (H23 q) as [Hd23 Hf23].
  split; [auto |]. intros content Hc.
  destruct (Hf12 content Hc) as [content' Hc']. by apply (Hf23 content').
Qed.

Lemma keeps_nodes_mkdir_entry (fs : filesystem) name :
  fs !! name = None -> keeps_nodes fs (<[name := Dir]> fs).
Proof.
  intros Hnone q. destruct (decide (name = q)) as [<- | Hne].
  - rewrite Hnone. split; [done |]. intros; discriminate.
  - rewrite lookup_insert_ne by done. apply keeps_nodes_refl.
Qed.

Lemma only_new_dirs_refl fs : only_new_dirs fs fs.
Proof. intros q. by left. Qed.

Lemma only_new_dirs_trans fs1 fs2 fs3 :
  only_new_dirs fs1 fs2 -> only_new_dirs fs2 fs3 -> only_new_dirs fs1 fs3.
Proof.
  intros H12 H23 q. destruct (H23 q) as [H | [Hnone Hdir]].
  - rewrite H. apply H12.
  - right. split; [| done]. destruct (H12 q) as [H | [Hn Hd]]; congruence.
Qed.

Lemma only_new_dirs_mkdir_entry (fs : filesystem) name :
  fs !! name = None -> only_new_dirs fs (<[name := Dir]> fs).
Proof.
  intros Hnone q. destruct (decide (name = q)) as [<- | Hne].
  - right. by rewrite lookup_insert_eq.
  - left. by rewrite lookup_insert_ne.
Qed.

Lemma keeps_nodes_write_file p content :
  io_within keeps_nodes (os.write_file p content).
Proof.
  intros fs. unfold os.write_file.
  assert (fs !! p <> Some Dir ->
          keeps_nodes fs
            (snd (if negb (PyStr.nonempty p) then (Raise (Exn FileNotFoundError p), fs)
                  else if PyStr.endswith p os_path.sep then
                    match fs !! PyStr.rstrip p os_path.sep with
                    | Some (File _) => (Raise (Exn NotADirectoryError p), fs)
                    | _ => (Raise (Exn IsADirectoryError p), fs)
                    end
                  else match os.check_parent fs p with
                       | Ok _ => (Ok tt, <[p := File content]> fs)
                       | Raise e => (Raise e, fs)
                       end))) as Hrest.
  { intros Hnd. destruct (negb (PyStr.nonempty p)); [apply keeps_nodes_refl |].
    destruct (PyStr.endswith p os_path.sep);
      [repeat case_match; apply keeps_nodes_refl |].
    destruct (os.check_parent fs p); simpl; [| apply keeps_nodes_refl].
    intros q. destruct (decide (p = q)) as [<- | Hne].
    - rewrite lookup_insert_eq. split; [done |]. intros; by eexists.
    - rewrite lookup_insert_ne by done. apply keeps_nodes_refl. }
  destruct (fs !! p) as [[c |] |] eqn:Hp;
    [apply Hrest; congruence | apply keeps_nodes_refl | apply Hrest; congruence].
Qed.

Local Abbreviation kn_ret := (io_within_ret keeps_nodes keeps_nodes_refl).
Local Abbreviation kn_raise := (io_within_raise keeps_nodes keeps_nodes_refl).
Local Abbreviation kn_lift := (io_within_lift keeps_nodes keeps_nodes_refl).
Local Abbreviation kn_bind := (io_within_bind keeps_nodes keeps_nodes_trans).
Local Abbreviation kn_for_items :=
  (io_within_for_items keeps_nodes keeps_nodes_refl keeps_nodes_trans).
Local Abbreviation kn_makedirs :=
  (io_within_makedirs keeps_nodes keeps_nodes_refl keeps_nodes_trans
     keeps_nodes_mkdir_entry).

Lemma keeps_nodes_download_file url local_path :
  io_within keeps_nodes (github_client.download_file gh url local_path).
Proof.
  unfold github_client.download_file.
  apply kn_bind; [apply kn_lift |].
  intros content. apply kn_bind; [apply kn_makedirs |].
  intros _. apply keeps_nodes_write_file.
Qed.

Lemma keeps_nodes_download_folder depth repo_path local_path :
  io_within keeps_nodes (github_client.download_folder cfg gh depth repo_path local_path).
Proof.
  revert repo_path local_path.
  induction depth as [|depth IH]; intros repo_path local_path; simpl.
  - apply kn_raise.
  - apply kn_bind; [apply kn_lift |].
    intros items. apply kn_bind; [apply kn_makedirs |].
    intros _. destruct items as [it | its]; [apply kn_raise |].
    apply kn_for_items.
    intros it. unfold github_client.download_folder_body.
    repeat case_match; [apply keeps_nodes_download_file | apply IH | apply kn_raise].
Qed.
End keeps_nodes_facts.

(** X5.  However it ends, [download_folder] removes no path and changes the
    kind of none: what was a directory before is a directory afterwards,
    and what was a file is still a file (its bytes may have been
    replaced). *)
Theorem download_folder_keeps_existing_nodes
    (cfg : config) (gh : github) (depth : nat) (repo_path local_path : string)
    (fs : filesystem) (q : string) :
  let fs' := snd (github_client.download_folder cfg gh depth repo_path local_path fs) in
  (fs !! q = Some Dir -> fs' !! q = Some Dir)
  /\ (forall content, fs !! q = Some (File content) ->
      exists content', fs' !! q = Some (File content')).
Proof. apply (keeps_nodes_download_folder cfg gh depth repo_path local_path fs q). Qed.

(** ** What a successful download leaves *)

Section download_results.
Variable cfg : config.
Variable gh : github.

Lemma write_file_ok p content (fs fs' : filesystem) :
  os.write_file p content fs = (Ok tt, fs') -> fs' = <[p := File content]> fs.
Proof.
  unfold os.write_file.
  assert ((if negb (PyStr.nonempty p) then (Raise (Exn FileNotFoundError p), fs)
           else if PyStr.endswith p os_path.sep then
             match fs !! PyStr.rstrip p os_path.sep with
             | Some (File _) => (Raise (Exn NotADirectoryError p), fs)
             | _ => (Raise (Exn IsADirectoryError p), fs)
             end
           else match os.check_parent fs p with
                | Ok _ => (Ok tt, <[p := File content]> fs)
                | Raise e => (Raise e, fs)
                end) = (Ok tt, fs') -> fs' = <[p := File content]> fs) as Hrest.
  { destruct (negb (PyStr.nonempty p)); [discriminate |].
    destruct (PyStr.endswith p os_path.sep);
      [repeat case_match; discriminate |].
    destruct (os.check_parent fs p); [| discriminate]. by intros [= <-]. }
  destruct (fs !! p) as [[c |] |]; [exact Hrest | discriminate | exact Hrest].
Qed.

Lemma only_new_dirs_makedirs name : io_within only_new_dirs (os.makedirs name).
Proof.
  apply io_within_makedirs;
    [apply only_new_dirs_refl | apply only_new_dirs_trans
     | apply only_new_dirs_mkdir_entry].
Qed.

Lemma download_file_ok url p (fs fs' : filesystem) :
  github_client.download_file gh url p fs = (Ok tt, fs') ->
  exists content fs1,
    gh_download gh url = Ok content
    /\ only_new_dirs fs fs1
    /\ fs' = <[p := File content]> fs1.
Proof.
  unfold github_client.download_file. unfold mbind at 1, IO_bind, lift.
  destruct (gh_download gh url) as [content | e]; [| discriminate].
  unfold mbind, IO_bind.
  pose proof (only_new_dirs_makedirs (os_path.dirname p) fs) as Hdirs.
  destruct (os.makedirs (os_path.dirname p) fs) as [[[] | e] fs1]; [| discriminate].
  intros Hwrite. apply write_file_ok in Hwrite.
  by exists content, fs1.
Qed.


(** A file written during a download is still a downloaded file at the
    end of it. *)
Lemma downloaded_file_stays (fs1 fs' : filesystem) p content url :
  gh_download gh url = Ok content ->
  fs1 !! p = Some (File content) ->
  keeps_nodes fs1 fs' -> only_downloads gh fs1 fs' ->
  exists content' url',
    fs' !! p = Some (File content') /\ gh_download gh url' = Ok content'.
Proof.
  intros Hdl Hp Hkeep Honly.
  destruct (proj2 (Hkeep p) content Hp) as [content' Hp'].
  destruct (Honly p) as [Hsame | [Hdir | (url' & c & Hdl' & Hnew)]].
  - exists content, url. by rewrite Hsame.
  - congruence.
  - exists c, url'. by rewrite Hnew.
Qed.

Lemma for_items_files depth repo_path local_path its (fs fs' : filesystem) :
  github_client.for_items
    (github_client.download_folder_body gh
       (github_client.download_folder cfg gh depth) repo_path local_path)
    its fs = (Ok tt, fs') ->
  forall it, it ∈ its ->
    (item_type it = "file" \/ item_type it = "dir")
    /\ (item_type it = "file" ->
        exists content url,
          fs' !! os_path.join local_path (item_name it) = Some (File content)
          /\ gh_download gh url = Ok content).
Proof.
  set (body := github_client.download_folder_body gh
                 (github_client.download_folder cfg gh depth) repo_path local_path).
  assert (forall it, io_within keeps_nodes (body it)) as Hkeep.
  { intros it. unfold body, github_client.download_folder_body.
    repeat case_match;
      [apply keeps_nodes_download_file | apply keeps_nodes_download_folder
       | apply io_within_raise, keeps_nodes_refl]. }
  assert (forall it, downloads_only gh (body it)) as Honly.
  { intros it. apply downloads_only_download_folder_body.
    intros rp lp. apply downloads_only_download_folder. }
  revert fs. induction its as [|it0 rest IH]; intros fs Hrun it Hit;
    [by apply elem_of_nil in Hit |].
  simpl in Hrun. unfold mbind, IO_bind in Hrun.
  destruct (body it0 fs) as [[[] | e] fs1] eqn:Hbody; [| discriminate].
  apply elem_of_cons in Hit as [-> | Hit]; [| by apply (IH fs1)].
  unfold body, github_client.download_folder_body in Hbody.
  destruct (String.eqb (item_type it0) "file") eqn:Hfile.
  - apply String.eqb_eq in Hfile. split; [by left |]. intros _.
    apply download_file_ok in Hbody as (content & fs0 & Hdl & _ & ->).
    set (fs1 := <[os_path.join local_path (item_name it0) := File content]> fs0) in *.
    eapply (downloaded_file_stays fs1 fs' _ content); [exact Hdl | | |].
    + apply lookup_insert_eq.
    + pose proof (io_within_for_items keeps_nodes keeps_nodes_refl keeps_nodes_trans
                    body rest Hkeep fs1) as Hk.
      by rewrite Hrun in Hk.
    + pose proof (downloads_only_for_items gh body rest Honly fs1) as Hd.
      by rewrite Hrun in Hd.
  - destruct (String.eqb (item_type it0) "dir") eqn:Hdir; [| discriminate].
    apply String.eqb_eq in Hdir. split; [by right |].
    intros Ht. rewrite Ht in Hdir. discriminate.
Qed.
End download_results.



(** X7.  When [download_folder] succeeds, the repository path answered
    with a list all of whose items are files or folders, and for every
    file item the local folder holds a file of that name with bytes that
    were served for a download URL. *)
Theorem download_folder_success
    (cfg : config) (gh : github) (depth : nat) (repo_path local_path : string)
    (fs fs' : filesystem) :
  github_client.download_folder cfg gh depth repo_path local_path fs = (Ok tt, fs') ->
  exists its,
    github_client.github_api_get cfg gh repo_path = Ok (JsonList its)
    /\ forall it, it ∈ its ->
         (item_type it = "file" \/ item_type it = "dir")
         /\ (item_type it = "file" ->
             exists content url,
               fs' !! os_path.join local_path (item_name it) = Some (File content)
               /\ gh_download gh url = Ok content).
Proof.
  destruct depth as [|depth]; [discriminate |]. simpl.
  unfold mbind at 1, IO_bind, lift.
  destruct (github_client.github_api_get cfg gh repo_path) as [items | e];
    [| discriminate].
  unfold mbind at 1, IO_bind.
  destruct (os.makedirs local_path fs) as [[[] | e] fs1]; [| discriminate].
  destruct items as [it | its]; [discriminate |].
  intros Hrun. exists its. split; [done |].
  by apply (for_items_files cfg gh depth repo_path local_path its fs1 fs').
Qed.

Lemma download_folder_success_witness :
  exists content url,
    snd (github_client.download_folder Sample.cfg_github Sample.gh_fire 3
           "models/fire_pytorch" "/models/fire_pytorch" ∅)
      !! "/models/fire_pytorch/weights.bin" = Some (File content)
    /\ gh_download Sample.gh_fire url = Ok content.
Proof.
  destruct (download_folder_success Sample.cfg_github Sample.gh_fire 3
              "models/fire_pytorch" "/models/fire_pytorch" ∅
              (snd (github_client.download_folder Sample.cfg_github Sample.gh_fire 3
                      "models/fire_pytorch" "/models/fire_pytorch" ∅)))
    as (its & Hits & Hall).
  - vm_compute. reflexivity.
  - injection Hits as <-.
    destruct (Hall (Sample.file_item "weights.bin")) as (_ & Hfile).
    + apply elem_of_cons. by left.
    + apply Hfile. reflexivity.
Defined.

(** ** Materialising a single file *)

Lemma basename_no_sep p : str_contains "/" (os_path.basename p) = false.
Proof.
  unfold os_path.basename, os_path.sep, PyStr.rfind.
  destruct (PathFacts.rfind_from_spec "/" p 0 (-1))
    as [[-> Hno] | (Hrange & rest & Hdrop & Hno)]; [done |].
  rewrite Z.sub_0_r in Hdrop.
  replace (Z.to_nat (PyStr.rfind_from p "/" 0 (-1) + 1))
    with (Z.to_nat (PyStr.rfind_from p "/" 0 (-1)) + 1)%nat by lia.
  by rewrite PathFacts.drop_add, Hdrop.
Qed.

Lemma join_models_basename p :
  os_path.join "/models" (os_path.basename p) = "/models/" ++ os_path.basename p.
Proof.
  pose proof (basename_no_sep p) as Hno. unfold os_path.join.
  destruct (os_path.basename p) as [|a b]; [done |].
  simpl in Hno. apply orb_false_iff in Hno as [Ha _].
  unfold os_path.sep. simpl. by rewrite Ha.
Qed.

(** X8.  For an entry whose repository path answers with a single [file]
    dict, [download_github_model] downloads to
    [/models/<basename of the path>], whatever the entry's [model_name]
    is, and returns that path exactly when [download_file] succeeds; the
    file then holds the bytes served for the item's download URL.
    Nothing is cleared first: every path that existed before still exists
    with the same kind. *)
Theorem download_single_file_model
    (cfg : config) (gh : github) (depth : nat) (model_entry : metadata)
    (fs : filesystem) (repo_path : string) (it : item) :
  PyDict.get "model_path" model_entry = Some repo_path ->
  github_client.github_api_get cfg gh repo_path = Ok (JsonDict it) ->
  item_type it = "file" ->
  let dest_file := "/models/" ++ os_path.basename repo_path in
  github_client.download_github_model cfg gh depth model_entry fs =
  (match fst (github_client.download_file gh (item_download_url it) dest_file fs) with
   | Ok _ => Ok dest_file
   | Raise e => Raise e
   end,
   snd (github_client.download_file gh (item_download_url it) dest_file fs))
  /\ (forall p fs',
        github_client.download_github_model cfg gh depth model_entry fs = (Ok p, fs') ->
        p = dest_file
        /\ exists content,
             gh_download gh (item_download_url it) = Ok content
             /\ fs' !! dest_file = Some (File content))
  /\ keeps_nodes fs
       (snd (github_client.download_github_model cfg gh depth model_entry fs)).
Proof.
  intros Hpath Hinfo Htype dest_file.
  assert (github_client.download_github_model cfg gh depth model_entry fs =
          (match fst (github_client.download_file gh (item_download_url it)
                        dest_file fs) with
           | Ok _ => Ok dest_file
           | Raise e => Raise e
           end,
           snd (github_client.download_file gh (item_download_url it) dest_file fs)))
    as Hrun.
  { unfold github_client.download_github_model, PyDict.getitem.
    rewrite Hpath. unfold mbind at 1, IO_bind, lift.
    unfold mbind at 1, IO_bind. rewrite Hinfo, Htype.
    rewrite join_models_basename. fold dest_file. simpl.
    unfold mbind, IO_bind.
    by destruct (github_client.download_file gh (item_download_url it) dest_file fs)
      as [[[] | e] fs']. }
  split; [exact Hrun |]. split.
  - intros p fs'. rewrite Hrun.
    destruct (github_client.download_file gh (item_download_url it) dest_file fs)
      as [[[] | e] fs1] eqn:Hdl; simpl; [| discriminate].
    intros [= <- <-]. split; [done |].
    apply download_file_ok in Hdl as (content & fs0 & Hget & _ & ->).
    exists content. split; [done |]. apply lookup_insert_eq.
  - rewrite Hrun. simpl. apply keeps_nodes_download_file.
Qed.

Lemma download_single_file_model_witness :
  github_client.download_github_model Sample.cfg_github Sample.gh_rf 0
    Sample.rf_entry Sample.fs_old =
  (Ok "/models/rf_model.pkl",
   <["/models/rf_model.pkl" := File "pickled forest"]> Sample.fs_old).
Proof.
  refine (eq_trans
            (proj1 (download_single_file_model Sample.cfg_github Sample.gh_rf 0
                      Sample.rf_entry Sample.fs_old
                      "models/rf_model.pkl" (Sample.file_item "rf_model.pkl")
                      eq_refl eq_refl eq_refl)) _).
  vm_compute. reflexivity.
Defined.

(** X9.  [download_github_model] leaves the disk untouched when it fails
    before any download starts: when the entry has no [model_path]
    ([KeyError]), when the request for the path fails (the request's
    error), when the answer is a dict whose type is not [file]
    ([RuntimeError]), and when the answer is a list but the entry has no
    [model_name] ([KeyError], raised before the destination is
    cleared). *)
Theorem download_github_model_early_failures
    (cfg : config) (gh : github) (depth : nat) (model_entry : metadata)
    (fs : filesystem) :
  (PyDict.get "model_path" model_entry = None ->
   github_client.download_github_model cfg gh depth model_entry fs =
   (Raise (Exn KeyError "model_path"), fs))
  /\ (forall repo_path e,
        PyDict.get "model_path" model_entry = Some repo_path ->
        github_client.github_api_get cfg gh repo_path = Raise e ->
        github_client.download_github_model cfg gh depth model_entry fs =
        (Raise e, fs))
  /\ (forall repo_path it,
        PyDict.get "model_path" model_entry = Some repo_path ->
        github_client.github_api_get cfg gh repo_path = Ok (JsonDict it) ->
        item_type it <> "file" ->
        github_client.download_github_model cfg gh depth model_entry fs =
        (Raise (Exn RuntimeError
                  ("Unsupported GitHub model type for path: " ++ repo_path)), fs))
  /\ (forall repo_path its,
        PyDict.get "model_path" model_entry = Some repo_path ->
        github_client.github_api_get cfg gh repo_path = Ok (JsonList its) ->
        PyDict.get "model_name" model_entry = None ->
        github_client.download_github_model cfg gh depth model_entry fs =
        (Raise (Exn KeyError "model_name"), fs)).
Proof.
  unfold github_client.download_github_model, PyDict.getitem.
  repeat split.
  - intros ->. reflexivity.
  - intros repo_path e -> Hinfo. unfold mbind at 1, IO_bind, lift.
    unfold mbind at 1, IO_bind. by rewrite Hinfo.
  - intros repo_path it -> Hinfo Htype. unfold mbind at 1, IO_bind, lift.
    unfold mbind at 1, IO_bind. rewrite Hinfo.
    apply String.eqb_neq in Htype. by rewrite Htype.
  - intros repo_path its -> Hinfo ->. unfold mbind at 1, IO_bind, lift.
    unfold mbind at 1, IO_bind. by rewrite Hinfo.
Qed.

Lemma download_github_model_early_failures_witness :
  github_client.download_github_model Sample.cfg_github Sample.gh_fire 3
    [("model_path", "models/fire_pytorch")] Sample.fs_old =
  (Raise (Exn KeyError "model_name"), Sample.fs_old).
Proof.
  apply (proj2 (proj2 (proj2
           (download_github_model_early_failures Sample.cfg_github Sample.gh_fire 3
              [("model_path", "models/fire_pytorch")] Sample.fs_old)))
           "models/fire_pytorch"
           [Sample.file_item "weights.bin"; Sample.dir_item "config"]);
    reflexivity.
Defined.

(** ** The outcomes of [predict] *)

(** X10.  Every response [predict] returns is one of four: 404 when the
    model is not active; 200 when inference returned a result and
    publishing it reported success, with the unwrapped result as
    [prediction]; 500 when publishing reported failure; and 400 with the
    exception text and the model's [model_info] when inference or
    publishing raised and the error message itself could be handed to the
    publisher. *)
Theorem predict_response_cases
    (cfg : config) (ext : collaborators) (r : registry) (model_name : string)
    (req : request) (resp : response) :
  rest_api.predict cfg ext r model_name req = Ok resp ->
  (model_registry.get_active_model model_name r = None
   /\ resp = {| status := 404;
               body := JObj [("error",
                              JStr ("Model '" ++ model_name ++ "' not active"))] |})
  \/ exists am features,
       model_registry.get_active_model model_name r = Some am
       /\ rest_api.payload_get_input (rest_api.predict_payload req) = Ok features
       /\ ((exists result published,
              model_detector_predict ext (am_model_path am) (am_model am) features =
              Ok result
              /\ send_message_to_prediction_destination ext
                   (JObj [("model", JStr model_name); ("status", JStr "success");
                          ("prediction", rest_api.unwrap_predictions result)])
                   model_name = Ok published
              /\ resp =
                 if published
                 then {| status := 200;
                         body := JObj [("status", JStr "sent");
                                       ("destination",
                                        JStr (PREDICTION_DESTINATION cfg));
                                       ("prediction",
                                        rest_api.unwrap_predictions result)] |}
                 else {| status := 500;
                         body := JObj [("error",
                                        JStr "Failed to forward prediction")] |})
           \/ (exists e published,
                 rest_api.predict_try cfg ext model_name am features = Raise e
                 /\ send_message_to_prediction_destination ext
                      (JObj [("model", JStr model_name); ("status", JStr "error");
                             ("error", JStr (exn_str e));
                             ("expected_input", am_model_info am)])
                      model_name = Ok published
                 /\ resp =
                    {| status := 400;
                       body := JObj [("model", JStr model_name);
                                     ("status", JStr "error");
                                     ("error", JStr (exn_str e));
                                     ("expected_input", am_model_info am)] |})).
Proof.
  unfold rest_api.predict.
  destruct (model_registry.get_active_model model_name r) as [am |] eqn:Hact.
  2: { intros [= <-]. by left. }
  destruct (rest_api.payload_get_input (rest_api.predict_payload req))
    as [features | e0] eqn:Hfeat; simpl; [| discriminate].
  intros Hresp. right. exists am, features. split; [done |]. split; [done |].
  destruct (rest_api.predict_try cfg ext model_name am features)
    as [resp' | e] eqn:Htry.
  - left. injection Hresp as <-.
    unfold rest_api.predict_try, rest_api.predict_forward in Htry.
    destruct (model_detector_predict ext (am_model_path am) (am_model am) features)
      as [result | e]; simpl in Htry; [| discriminate].
    destruct (send_message_to_prediction_destination ext _ model_name)
      as [published | e] eqn:Hsend; simpl in Htry; [| discriminate].
    exists result, published. split; [done |]. split; [done |].
    destruct published; by injection Htry as <-.
  - right. unfold rest_api.predict_except in Hresp.
    destruct (send_message_to_prediction_destination ext _ model_name)
      as [published | e'] eqn:Hsend; simpl in Hresp; [| discriminate].
    injection Hresp as <-. by exists e, published.
Qed.

Lemma predict_response_cases_witness :
  rest_api.predict Sample.cfg
    (Sample.collab (Ok (JNum 0)) true true (Ok tt) (Ok []))
    Sample.registry_active "rf_model"
    {| req_headers := []; req_json := Some (JObj [("input", JArr [JNum 7])]) |} =
  Ok {| status := 200;
        body := JObj [("status", JStr "sent"); ("destination", JStr "kafka");
                      ("prediction", JNum 1)] |}
  /\ exists am features,
       model_registry.get_active_model "rf_model" Sample.registry_active = Some am
       /\ rest_api.payload_get_input
            (rest_api.predict_payload
               {| req_headers := [];
                  req_json := Some (JObj [("input", JArr [JNum 7])]) |}) = Ok features.
Proof.
  split; [reflexivity |].
  destruct (predict_response_cases Sample.cfg
              (Sample.collab (Ok (JNum 0)) true true (Ok tt) (Ok []))
              Sample.registry_active "rf_model"
              {| req_headers := [];
                 req_json := Some (JObj [("input", JArr [JNum 7])]) |}
              _ eq_refl) as [[Hnone _] | (am & features & Hact & Hfeat & _)].
  - discriminate Hnone.
  - exists am, features. split; [exact Hact | exact Hfeat].
Defined.

(** X11.  For an active model, a JSON body that is truthy but no object
    (a non-empty array or string, a non-zero number, [true]) makes
    [predict] raise [AttributeError] before the model is called, whatever
    the collaborators do; a falsy body of any type is handled like an
    absent one. *)
Theorem predict_non_object_body
    (cfg : config) (ext : collaborators) (r : registry) (model_name : string)
    (headers : PyDict.t string) (j : json) (am : active_model) :
  model_registry.get_active_model model_name r = Some am ->
  (forall o, j <> JObj o) ->
  (truthy j = true ->
   rest_api.predict cfg ext r model_name
     {| req_headers := headers; req_json := Some j |} =
   Raise (Exn AttributeError "object has no attribute 'get'"))
  /\ (truthy j = false ->
      rest_api.predict cfg ext r model_name
        {| req_headers := headers; req_json := Some j |} =
      rest_api.predict cfg ext r model_name
        {| req_headers := headers; req_json := None |}).
Proof.
  intros Hact Hobj. unfold rest_api.predict, rest_api.predict_payload, get_json_silent.
  rewrite Hact. simpl. split; intros Htruthy; rewrite Htruthy; [| done].
  destruct j; try done. by destruct (Hobj o).
Qed.

Lemma predict_non_object_body_witness :
  rest_api.predict Sample.cfg
    (Sample.collab (Ok (JNum 0)) true true (Ok tt) (Ok []))
    Sample.registry_active "rf_model"
    {| req_headers := []; req_json := Some (JArr [JNum 5; JNum 3]) |} =
  Raise (Exn AttributeError "object has no attribute 'get'").
Proof.
  apply (proj1 (predict_non_object_body Sample.cfg
                  (Sample.collab (Ok (JNum 0)) true true (Ok tt) (Ok []))
                  Sample.registry_active "rf_model" [] (JArr [JNum 5; JNum 3])
                  Sample.rf_active eq_refl
                  (fun o H => eq_ind (JArr [JNum 5; JNum 3])
                                (fun x => match x with JArr _ => True | _ => False end)
                                I (JObj o) H))).
  reflexivity.
Defined.

(** ** The webhook's outcomes *)

(** X12.  Whenever [github_webhook] returns a response its status is 200.
    The event is the value of the header [X-GitHub-Event], whose name is
    compared without regard to case.  The payload goes to the push
    handler, with the filter [refs/heads/main], only for the event [push]
    with a body that decodes; for [ping] the answer is [pong]; and the
    handler raises only for a [push] whose body does not decode, without
    producing an event. *)
Theorem github_webhook_outcomes (ext : collaborators) (req : request) :
  (forall resp, fst (rest_api.github_webhook ext req) = Ok resp -> status resp = 200)
  /\ (snd (rest_api.github_webhook ext req) <> [] ->
      headers_get "X-GitHub-Event" (req_headers req) = Some "push"
      /\ exists payload,
           req_json req = Some payload
           /\ snd (rest_api.github_webhook ext req) =
              handle_push_event ext payload "refs/heads/main")
  /\ (headers_get "X-GitHub-Event" (req_headers req) = Some "ping" ->
      rest_api.github_webhook ext req =
      (Ok {| status := 200; body := JObj [("status", JStr "pong")] |}, []))
  /\ (forall e,
        fst (rest_api.github_webhook ext req) = Raise e ->
        headers_get "X-GitHub-Event" (req_headers req) = Some "push"
        /\ req_json req = None
        /\ exn_cls e = BadRequest
        /\ snd (rest_api.github_webhook ext req) = []).
Proof.
  unfold rest_api.github_webhook, get_json.
  destruct (headers_get "X-GitHub-Event" (req_headers req)) as [event |] eqn:Hev.
  2: { repeat split; simpl; try done. by intros resp [= <-]. }
  destruct (decide (event = "ping")) as [-> | Hping].
  { repeat split; simpl; try done. by intros resp [= <-]. }
  rewrite bool_decide_eq_false_2 by congruence.
  destruct (decide (event = "push")) as [-> | Hpush].
  - rewrite bool_decide_eq_true_2 by done. simpl.
    destruct (req_json req) as [payload |]; simpl.
    + repeat split; try done.
      * by intros resp [= <-].
      * by exists payload.
    + repeat split; try done. by simplify_eq.
  - rewrite bool_decide_eq_false_2 by congruence. simpl.
    repeat split; try done.
    + by intros resp [= <-].
    + congruence.
Qed.

Lemma github_webhook_outcomes_witness :
  rest_api.github_webhook (Sample.collab (Ok JNull) true true (Ok tt) (Ok []))
    {| req_headers := [("Host", "serving"); ("x-github-event", "ping")];
       req_json := None |} =
  (Ok {| status := 200; body := JObj [("status", JStr "pong")] |}, []).
Proof.
  apply (proj1 (proj2 (proj2
           (github_webhook_outcomes
              (Sample.collab (Ok JNull) true true (Ok tt) (Ok []))
              {| req_headers := [("Host", "serving"); ("x-github-event", "ping")];
                 req_json := None |})))).
  reflexivity.
Defined.

(** ** Failures at start-up and at shutdown *)

(** X13.  With the GitHub source [initialize_models] never raises: a
    failed listing is swallowed and leaves the registry empty.  With the
    local source it raises exactly when the models path exists and
    [os.listdir] raises, with that exception; a missing models path is
    not an error.  Whenever it raises, the registry has already been
    emptied. *)
Theorem initialize_models_failures
    (cfg : config) (gh : github) (disk : os_view) (r0 : registry) :
  (MODEL_SOURCE cfg = "github" ->
   fst (rest_api.initialize_models cfg gh disk r0) = Ok tt
   /\ forall e,
        github_client.list_github_models cfg gh = Raise e ->
        snd (rest_api.initialize_models cfg gh disk r0) =
        {| available := PyDict.empty; active := PyDict.empty |})
  /\ (MODEL_SOURCE cfg <> "github" ->
      (forall e,
         fst (rest_api.initialize_models cfg gh disk r0) = Raise e <->
         path_exists disk (MODELS_PATH cfg) = true
         /\ listdir disk (MODELS_PATH cfg) = Raise e)
      /\ (path_exists disk (MODELS_PATH cfg) = false ->
          rest_api.initialize_models cfg gh disk r0 =
          (Ok tt, {| available := PyDict.empty; active := PyDict.empty |})))
  /\ (forall e,
        fst (rest_api.initialize_models cfg gh disk r0) = Raise e ->
        snd (rest_api.initialize_models cfg gh disk r0) =
        {| available := PyDict.empty; active := PyDict.empty |}).
Proof.
  unfold rest_api.initialize_models, rest_api._initialize_from_github,
    rest_api._initialize_from_filesystem, model_registry.clear_all.
  split; [| split].
  - intros Hsrc. rewrite Hsrc. simpl. split; [done |]. by intros e ->.
  - intros Hsrc. apply String.eqb_neq in Hsrc. rewrite Hsrc. split.
    + intros e. destruct (path_exists disk (MODELS_PATH cfg)); simpl.
      * destruct (listdir disk (MODELS_PATH cfg)) as [names | e']; simpl.
        -- split; [discriminate | intros [_ ?]; discriminate].
        -- split; [intros [= <-]; done | by intros [_ [= <-]]].
      * split; [discriminate | intros [? _]; discriminate].
    + by intros ->.
  - intros e. destruct (String.eqb (MODEL_SOURCE cfg) "github"); simpl;
      [discriminate |].
    destruct (path_exists disk (MODELS_PATH cfg)); simpl; [| discriminate].
    by destruct (listdir disk (MODELS_PATH cfg)).
Qed.

Lemma initialize_models_failures_witness :
  rest_api.initialize_models Sample.cfg (Sample.gh_root [])
    {| path_exists := fun _ => false;
       listdir := fun p => Raise (Exn FileNotFoundError p);
       path_isdir := fun _ => false;
       path_isfile := fun _ => false |}
    Sample.registry_active =
  (Ok tt, {| available := PyDict.empty; active := PyDict.empty |}).
Proof.
  apply (proj2 (proj1 (proj2
           (initialize_models_failures Sample.cfg (Sample.gh_root [])
              {| path_exists := fun _ => false;
                 listdir := fun p => Raise (Exn FileNotFoundError p);
                 path_isdir := fun _ => false;
                 path_isfile := fun _ => false |}
              Sample.registry_active))
           (fun H => eq_ind "local_filesystem"
                       (fun s => match s with
                                 | String "l" _ => True
                                 | _ => False
                                 end) I "github" H))).
  reflexivity.
Defined.

(** X14.  When listing the managed containers raises, the exception
    leaves [cleanup]: [sys.exit] is not reached and "Cleanup complete" is
    not logged, although the consumer has been stopped by then.  The log
    is the start record, the consumer's record if any, and the record that
    announces the containers. *)
Theorem cleanup_listing_failure (cfg : config) (ext : collaborators) (e : exn) :
  list_managed_containers ext = Raise e ->
  snd (rest_api.cleanup cfg ext) = Propagates e
  /\ fst (rest_api.cleanup cfg ext) =
     ([rest_api.log INFO "[SHUTDOWN] Starting cleanup..."] ++
      rest_api.cleanup_consumers cfg ext ++
      [rest_api.log INFO "[SHUTDOWN] Stopping TF Serving containers..."])%list
  /\ rest_api.log INFO "[SHUTDOWN] Cleanup complete" ∉ fst (rest_api.cleanup cfg ext).
Proof.
  intros Hls. unfold rest_api.cleanup. rewrite Hls. simpl.
  split; [done |]. split; [done |].
  intros Hin. apply elem_of_cons in Hin as [Hin | Hin]; [discriminate |].
  apply elem_of_app in Hin as [Hin | Hin].
  - unfold rest_api.cleanup_consumers in Hin.
    repeat case_match;
      try (apply list_elem_of_singleton in Hin; discriminate);
      by apply elem_of_nil in Hin.
  - apply list_elem_of_singleton in Hin. discriminate.
Qed.

Lemma cleanup_listing_failure_witness :
  rest_api.cleanup Sample.cfg
    (Sample.collab (Ok JNull) true true (Ok tt)
       (Raise (Exn OtherException "Error while fetching server API version"))) =
  ([ rest_api.log INFO "[SHUTDOWN] Starting cleanup...";
     rest_api.log INFO "[SHUTDOWN] Kafka consumer stopped";
     rest_api.log INFO "[SHUTDOWN] Stopping TF Serving containers..." ],
   Propagates (Exn OtherException "Error while fetching server API version")).
Proof.
  destruct (cleanup_listing_failure Sample.cfg
              (Sample.collab (Ok JNull) true true (Ok tt)
                 (Raise (Exn OtherException "Error while fetching server API version")))
              _ eq_refl) as (Hend & Hlog & _).
  apply injective_projections; [exact Hlog | exact Hend].
Defined.

(** X15.  [cleanup] stops only the consumer of the configured input source:
    with [kafka] its outcome is fixed by what stopping the Kafka consumer
    and the containers do, with [mqtt] by the MQTT consumer and the
    containers, and with any other source no consumer is stopped at all. *)
Theorem cleanup_stops_configured_consumer_only
    (cfg : config) (ext ext' : collaborators) :
  list_managed_containers ext = list_managed_containers ext' ->
  (INPUT_DATA_SOURCE cfg = "kafka" ->
   stop_kafka_consumer ext = stop_kafka_consumer ext' ->
   rest_api.cleanup cfg ext = rest_api.cleanup cfg ext')
  /\ (INPUT_DATA_SOURCE cfg = "mqtt" ->
      stop_mqtt_consumer ext = stop_mqtt_consumer ext' ->
      rest_api.cleanup cfg ext = rest_api.cleanup cfg ext')
  /\ (INPUT_DATA_SOURCE cfg <> "kafka" -> INPUT_DATA_SOURCE cfg <> "mqtt" ->
      rest_api.cleanup cfg ext = rest_api.cleanup cfg ext'
      /\ rest_api.cleanup_consumers cfg ext = []).
Proof.
  intros Hls. unfold rest_api.cleanup, rest_api.cleanup_consumers.
  rewrite Hls. split; [| split].
  - intros -> ->. reflexivity.
  - intros -> ->. reflexivity.
  - intros Hk Hm. apply String.eqb_neq in Hk, Hm. rewrite Hk, Hm. done.
Qed.

Lemma cleanup_stops_configured_consumer_only_witness :
  rest_api.cleanup Sample.cfg
    {| model_detector_predict := fun _ _ _ => Ok JNull;
       send_message_to_prediction_destination := fun _ _ => Ok true;
       lifecycle_activate_model := fun _ => (false, "", None);
       lifecycle_deactivate_model := fun _ => (false, "");
       handle_push_event := fun _ _ => [];
       stop_kafka_consumer := Ok tt;
       stop_mqtt_consumer := Raise (Exn OtherException "not connected");
       list_managed_containers := Ok [] |} =
  rest_api.cleanup Sample.cfg (Sample.collab (Ok JNull) true true (Ok tt) (Ok [])).
Proof.
  apply (proj1 (cleanup_stops_configured_consumer_only Sample.cfg _
                  (Sample.collab (Ok JNull) true true (Ok tt) (Ok [])) eq_refl));
    reflexivity.
Defined.

(** ** The listing, status and help views *)

Section view_facts.
Variable api_url : string.

Lemma list_models_entry_fields (active_models_dict : PyDict.t active_model)
    (model_name : string) (md : metadata) :
  let e := rest_api.list_models_entry api_url active_models_dict (model_name, md) in
  json_field "model_name" e = Some (JStr model_name)
  /\ json_field "status" e =
     Some (JStr (if PyDict.contains model_name active_models_dict
                 then "active" else "inactive"))
  /\ json_field "predict_url" e =
     Some (if PyDict.contains model_name active_models_dict
           then JStr (api_url ++ "/predict/" ++ model_name) else JNull)
  /\ json_field "model_info" e =
     am_model_info <$> PyDict.get model_name active_models_dict.
Proof.
  unfold rest_api.list_models_entry, PyDict.contains.
  destruct (PyDict.get model_name active_models_dict) as [active_data |];
    repeat split; reflexivity.
Qed.

Lemma contains_keys {V} k (d : PyDict.t V) :
  PyDict.contains k d = true <-> k ∈ PyDict.keys d.
Proof.
  unfold PyDict.contains. rewrite <- PyDictFacts.get_Some_keys.
  destruct (PyDict.get k d); split; done.
Qed.
End view_facts.

(** The entries of [list_models], field by field. *)
Lemma list_models_view (api_url : string) (r : registry) :
  exists entries,
    rest_api.list_models api_url r = {| status := 200; body := JArr entries |}
    /\ json_field "model_name" <$> entries =
       (fun k => Some (JStr k)) <$> PyDict.keys (available r)
    /\ forall e name,
         e ∈ entries ->
         json_field "model_name" e = Some (JStr name) ->
         name ∈ PyDict.keys (available r)
         /\ (json_field "status" e = Some (JStr "active") <->
             name ∈ PyDict.keys (active r))
         /\ json_field "status" e =
            Some (JStr (if PyDict.contains name (active r)
                        then "active" else "inactive"))
         /\ json_field "predict_url" e =
            Some (if PyDict.contains name (active r)
                  then JStr (api_url ++ "/predict/" ++ name) else JNull)
         /\ json_field "model_info" e =
            am_model_info <$> PyDict.get name (active r).
Proof.
  unfold rest_api.list_models, model_registry.list_available_models,
    model_registry.list_active_models, PyDict.items.
  eexists. split; [reflexivity |]. split.
  - unfold PyDict.keys. rewrite <- !list_fmap_compose.
    apply list_fmap_ext. intros i [k md] _. simpl.
    apply (list_models_entry_fields api_url (active r) k md).
  - intros e name He Hname.
    apply list_elem_of_fmap in He as ([k md] & -> & Hkv).
    destruct (list_models_entry_fields api_url (active r) k md)
      as (Hn & Hs & Hu & Hi).
    rewrite Hn in Hname. injection Hname as ->.
    split; [| split; [| done]].
    + unfold PyDict.keys. apply list_elem_of_fmap. by exists (name, md).
    + rewrite Hs, <- contains_keys.
      destruct (PyDict.contains name (active r)); split; done.
Qed.

(** X16.  [list_models] answers 200 with one entry per available model, in
    the order of the available map.  An entry's status is [active]
    exactly when its name is a key of the active map; then it carries the
    predict URL and the model's [model_info], and otherwise its predict
    URL is null and it has no [model_info].  A model that is active
    without being available is not listed. *)
Theorem list_models_entries (api_url : string) (r : registry) :
  exists entries,
    rest_api.list_models api_url r = {| status := 200; body := JArr entries |}
    /\ json_field "model_name" <$> entries =
       (fun k => Some (JStr k)) <$> PyDict.keys (available r)
    /\ forall e name,
         e ∈ entries ->
         json_field "model_name" e = Some (JStr name) ->
         name ∈ PyDict.keys (available r)
         /\ (json_field "status" e = Some (JStr "active") <->
             name ∈ PyDict.keys (active r))
         /\ json_field "status" e =
            Some (JStr (if PyDict.contains name (active r)
                        then "active" else "inactive"))
         /\ json_field "predict_url" e =
            Some (if PyDict.contains name (active r)
                  then JStr (api_url ++ "/predict/" ++ name) else JNull)
         /\ json_field "model_info" e =
            am_model_info <$> PyDict.get name (active r).
Proof. apply list_models_view. Qed.

(** X17.  [model_status] and [list_models] agree: the status endpoint
    answers 404 exactly for the names [list_models] has no entry for, and
    for a listed name it answers 200 with [active] true exactly when the
    entry's status is [active]. *)
Theorem model_status_agrees_with_list_models
    (api_url : string) (r : registry) (model_name : string) :
  exists entries,
    body (rest_api.list_models api_url r) = JArr entries
    /\ (status (rest_api.model_status r model_name) = 404 <->
        forall e, e ∈ entries -> json_field "model_name" e <> Some (JStr model_name))
    /\ (forall e,
          e ∈ entries ->
          json_field "model_name" e = Some (JStr model_name) ->
          status (rest_api.model_status r model_name) = 200
          /\ json_field "model_name" (body (rest_api.model_status r model_name)) =
             Some (JStr model_name)
          /\ (json_field "active" (body (rest_api.model_status r model_name)) =
              Some (JBool true) <->
              json_field "status" e = Some (JStr "active"))).
Proof.
  destruct (list_models_view api_url r) as (entries & Hrun & Hnames & Hall).
  exists entries. split; [by rewrite Hrun |].
  assert (model_registry.is_available model_name r = true <->
          exists e, e ∈ entries /\ json_field "model_name" e = Some (JStr model_name))
    as Havail.
  { unfold model_registry.is_available. rewrite contains_keys. split.
    - intros Hin.
      assert (Some (JStr model_name) ∈ json_field "model_name" <$> entries) as Hin'.
      { rewrite Hnames. apply list_elem_of_fmap. by exists model_name. }
      apply list_elem_of_fmap in Hin' as (e & He & Hine). by exists e.
    - intros (e & He & Hname). by destruct (Hall e model_name He Hname). }
  unfold rest_api.model_status. split.
  - destruct (model_registry.is_available model_name r) eqn:Hav; simpl.
    + split; [discriminate |]. intros Hno.
      destruct (proj1 Havail eq_refl) as (e & He & Hname). by destruct (Hno e He).
    + split; [| done]. intros _ e He Hname.
      assert (false = true) by (apply Havail; by exists e). discriminate.
  - intros e He Hname.
    assert (model_registry.is_available model_name r = true) as ->
      by (apply Havail; by exists e).
    simpl. split; [done |]. split; [done |].
    destruct (Hall e model_name He Hname) as (_ & _ & Hs & _).
    rewrite Hs. unfold model_registry.is_active.
    destruct (PyDict.contains model_name (active r)); split; done.
Qed.

(** X18.  [help_endpoint] always answers 200.  With no active model the
    body is a single message; otherwise [active_models] has one element
    per entry of the active map, in its order, named after the entry's own
    [model_name] field, whether or not the model is available. *)
Theorem help_endpoint_lists_active_models (api_url : string) (r : registry) :
  status (rest_api.help_endpoint api_url r) = 200
  /\ (active r = [] ->
      body (rest_api.help_endpoint api_url r) =
      JObj [("message", JStr "No models currently active.")])
  /\ (active r <> [] ->
      exists l,
        json_field "active_models" (body (rest_api.help_endpoint api_url r)) =
        Some (JArr l)
        /\ List.length l = PyDict.len (active r)
        /\ json_field "model_name" <$> l =
           (fun kv => Some (JStr (am_model_name (snd kv)))) <$> active r
        /\ json_field "endpoint_url" <$> l =
           (fun kv => Some (JStr (api_url ++ "/predict/" ++ am_model_name (snd kv))))
             <$> active r).
Proof.
  unfold rest_api.help_endpoint, model_registry.list_active_models.
  destruct (active r) as [|kv l] eqn:Hact; simpl.
  - split; [done |]. split; [done |]. by intros [].
  - split; [done |]. split; [discriminate |]. intros _.
    eexists. split; [reflexivity |]. split.
    + unfold PyDict.len. simpl. by rewrite length_fmap.
    + split; simpl; f_equal; rewrite <- list_fmap_compose; by apply list_fmap_ext.
Qed.

(** ** The models page *)

Section sort_facts.

Local Abbreviation ui_entry := rest_api.ui_entry.

Lemma string_ltb_asym s1 s2 : String.ltb s1 s2 = true -> String.ltb s2 s1 = false.
Proof.
  unfold String.ltb. rewrite (String.compare_antisym s2 s1).
  by destruct (String.compare s1 s2).
Qed.

Lemma ui_key_ltb_asym k1 k2 :
  rest_api.ui_key_ltb k1 k2 = true -> rest_api.ui_key_ltb k2 k1 = false.
Proof.
  unfold rest_api.ui_key_ltb. destruct k1 as [[|] s1], k2 as [[|] s2]; simpl;
    try done; apply string_ltb_asym.
Qed.

Lemma sort_insert_Permutation (m : ui_entry) l :
  rest_api.sort_insert m l ≡ₚ m :: l.
Proof.
  induction l as [|m' l IH]; simpl; [done |].
  case_match; [| done]. rewrite IH. apply Permutation_swap.
Qed.

Lemma sort_by_key_Permutation (l : list ui_entry) : rest_api.sort_by_key l ≡ₚ l.
Proof.
  unfold rest_api.sort_by_key. induction l as [|m l IH]; simpl; [done |].
  by rewrite sort_insert_Permutation, IH.
Qed.

Lemma sort_insert_HdRel (m0 m : ui_entry) l :
  ui_key_le m0 m -> HdRel ui_key_le m0 l -> HdRel ui_key_le m0 (rest_api.sort_insert m l).
Proof.
  intros Hm Hl. destruct l as [|m' l]; simpl; [by constructor |].
  case_match; constructor; [by inversion Hl | done].
Qed.

Lemma sort_insert_Sorted (m : ui_entry) l :
  Sorted ui_key_le l -> Sorted ui_key_le (rest_api.sort_insert m l).
Proof.
  induction 1 as [|m' l Hsorted IH Hhd]; simpl; [by repeat constructor |].
  destruct (rest_api.ui_key_ltb (rest_api.ui_key m') (rest_api.ui_key m)) eqn:Hlt.
  - constructor; [exact IH |].
    apply sort_insert_HdRel; [| done].
    unfold ui_key_le. by apply ui_key_ltb_asym.
  - constructor; [by constructor |]. by constructor.
Qed.

Lemma sort_by_key_Sorted (l : list ui_entry) : Sorted ui_key_le (rest_api.sort_by_key l).
Proof.
  unfold rest_api.sort_by_key. induction l as [|m l IH]; simpl; [constructor |].
  by apply sort_insert_Sorted.
Qed.

Lemma ui_key_le_active_first m1 m2 : ui_key_le m1 m2 -> active_first m1 m2.
Proof.
  unfold ui_key_le, active_first, rest_api.ui_key_ltb, rest_api.ui_key. simpl.
  intros Hle Hact. rewrite Hact in Hle. simpl in Hle.
  by destruct (rest_api.ui_is_active m1).
Qed.

Lemma Sorted_weaken {A} (R R' : A -> A -> Prop) l :
  (forall x y, R x y -> R' x y) -> Sorted R l -> Sorted R' l.
Proof.
  intros Himpl. induction 1 as [|x l Hs IH Hhd]; constructor; [done |].
  destruct Hhd; constructor; auto.
Qed.

Lemma StronglySorted_lookup {A} (R : A -> A -> Prop) l i j x y :
  StronglySorted R l -> (i < j)%nat -> l !! i = Some x -> l !! j = Some y -> R x y.
Proof.
  intros Hs. revert i j x y.
  induction Hs as [|z l Hs IH Hall]; intros i j x y Hij Hi Hj;
    [by rewrite lookup_nil in Hi |].
  destruct j as [|j]; [lia |]. simpl in Hj.
  destruct i as [|i]; simpl in Hi.
  - injection Hi as <-. rewrite Forall_forall in Hall. apply Hall.
    by eapply list_elem_of_lookup_2.
  - apply (IH i j); [lia | done | done].
Qed.
End sort_facts.

Lemma Sorted_lookup_succ {A} (R : A -> A -> Prop) l i x y :
  Sorted R l -> l !! i = Some x -> l !! S i = Some y -> R x y.
Proof.
  intros Hs. revert i. induction Hs as [|z l Hs IH Hhd]; intros i Hi Hj;
    [by rewrite lookup_nil in Hi |].
  destruct i as [|i]; simpl in *.
  - injection Hi as <-. destruct Hhd as [|w l' Hzw]; [done |].
    simpl in Hj. by injection Hj as <-.
  - by apply (IH i).
Qed.

Example models_ui_page :
  rest_api.ui_model_name <$>
    rest_api.models_ui "http://localhost:8086"
      {| available := [("zebra", []); ("apple", []); ("mango", []); ("banana", [])];
         active := [("mango", Sample.rf_active); ("zebra", Sample.rf_active)] |} =
  ["mango"; "zebra"; "apple"; "banana"].
Proof. reflexivity. Qed.

(** X19.  The list [models_ui] hands to the template is a rearrangement
    of one entry per available model, each flagged active exactly when its
    name is a key of the active map.  In it no inactive model comes
    before an active one, and two neighbours of the same kind are in
    ascending order of their names. *)
Theorem models_ui_sorted (api_url : string) (r : registry) :
  let page := rest_api.models_ui api_url r in
  page ≡ₚ rest_api.models_ui_entry api_url (active r) <$> available r
  /\ rest_api.ui_model_name <$> page ≡ₚ PyDict.keys (available r)
  /\ (forall m, m ∈ page ->
        rest_api.ui_is_active m =
        PyDict.contains (rest_api.ui_model_name m) (active r))
  /\ (forall i j x y,
        (i < j)%nat -> page !! i = Some x -> page !! j = Some y ->
        rest_api.ui_is_active y = true -> rest_api.ui_is_active x = true)
  /\ (forall i x y,
        page !! i = Some x -> page !! S i = Some y ->
        rest_api.ui_is_active x = rest_api.ui_is_active y ->
        String.ltb (rest_api.ui_model_name y) (rest_api.ui_model_name x) = false).
Proof.
  unfold rest_api.models_ui, model_registry.list_available_models,
    model_registry.list_active_models, PyDict.items.
  set (entries := map (rest_api.models_ui_entry api_url (active r)) (available r)).
  pose proof (sort_by_key_Permutation entries) as Hperm.
  pose proof (sort_by_key_Sorted entries) as Hsorted.
  simpl. split; [exact Hperm |]. split; [| split; [| split]].
  - rewrite Hperm. unfold entries, PyDict.keys.
    rewrite <- list_fmap_compose.
    assert (rest_api.ui_model_name ∘ rest_api.models_ui_entry api_url (active r)
            <$> available r = fst <$> available r) as ->; [| done].
    apply list_fmap_ext. by intros i [k md] _.
  - intros m Hm. rewrite Hperm in Hm.
    apply list_elem_of_fmap in Hm as ([k md] & -> & _). reflexivity.
  - intros i j x y Hij Hi Hj.
    apply (StronglySorted_lookup active_first (rest_api.sort_by_key entries) i j);
      try done.
    apply Sorted_StronglySorted.
    + intros m1 m2 m3 H12 H23 Hact. apply H12, H23, Hact.
    + eapply Sorted_weaken; [apply ui_key_le_active_first | exact Hsorted].
  - intros i x y Hi Hj Hsame.
    pose proof (Sorted_lookup_succ ui_key_le _ i x y Hsorted Hi Hj) as Hle.
    unfold ui_key_le, rest_api.ui_key_ltb, rest_api.ui_key in Hle. simpl in Hle.
    rewrite Hsame in Hle.
    by rewrite Bool.eqb_reflx in Hle.
Qed.

(** ** From the listing to the disk *)

Section listing_to_disk.
Variable cfg : config.
Variable gh : github.

Lemma rfind_from_absent c s i last :
  str_contains c s = false -> PyStr.rfind_from s c i last = last.
Proof.
  revert i last. induction s as [|a s IH]; intros i last; simpl; [done |].
  intros H. apply orb_false_iff in H as [Ha Hs]. rewrite Ha. by apply IH.
Qed.

Lemma basename_under_models_root name :
  str_contains "/" name = false ->
  os_path.basename (MODELS_ROOT ++ "/" ++ name) = name.
Proof.
  intros Hno. unfold os_path.basename, PyStr.rfind, os_path.sep.
  change (MODELS_ROOT ++ "/" ++ name)
    with (String "m" (String "o" (String "d" (String "e" (String "l"
           (String "s" (String "/" name))))))).
  cbn [PyStr.rfind_from Ascii.eqb Bool.eqb].
  rewrite (rfind_from_absent "/" name _ _ Hno). reflexivity.
Qed.

Lemma splitext_without_dot p :
  str_contains "." p = false -> os_path.splitext p = (p, EmptyString).
Proof.
  intros Hno. unfold os_path.splitext, os_path.extsep.
  rewrite (PathFacts.rfind_absent "." p Hno).
  pose proof (PathFacts.rfind_lower os_path.sep p) as Hsep.
  destruct (-1 >? PyStr.rfind p os_path.sep) eqn:Hgt; [| done].
  apply Z.gtb_lt in Hgt. lia.
Qed.

Lemma download_single_file_run depth model_entry (fs : filesystem) repo_path it :
  PyDict.get "model_path" model_entry = Some repo_path ->
  github_client.github_api_get cfg gh repo_path = Ok (JsonDict it) ->
  item_type it = "file" ->
  github_client.download_github_model cfg gh depth model_entry fs =
  (match fst (github_client.download_file gh (item_download_url it)
                ("/models/" ++ os_path.basename repo_path) fs) with
   | Ok _ => Ok ("/models/" ++ os_path.basename repo_path)
   | Raise e => Raise e
   end,
   snd (github_client.download_file gh (item_download_url it)
          ("/models/" ++ os_path.basename repo_path) fs)).
Proof.
  intros Hpath Hinfo Htype.
  unfold github_client.download_github_model, PyDict.getitem.
  rewrite Hpath. unfold mbind at 1, IO_bind, lift.
  unfold mbind at 1, IO_bind. rewrite Hinfo, Htype.
  rewrite join_models_basename. simpl.
  unfold mbind, IO_bind.
  by destruct (github_client.download_file gh (item_download_url it)
                 ("/models/" ++ os_path.basename repo_path) fs)
    as [[[] | e] fs'].
Qed.

Lemma keys_set_value_irrelevant {V W} k (v : V) (w : W)
    (d : PyDict.t V) (d' : PyDict.t W) :
  PyDict.keys d = PyDict.keys d' ->
  PyDict.keys (PyDict.set k v d) = PyDict.keys (PyDict.set k w d').
Proof.
  intros Hkeys. destruct (decide (k ∈ PyDict.keys d)) as [Hin | Hin].
  - rewrite PyDictFacts.keys_set_in by done.
    rewrite PyDictFacts.keys_set_in by (by rewrite <- Hkeys). done.
  - rewrite PyDictFacts.keys_set_notin by done.
    rewrite PyDictFacts.keys_set_notin by (by rewrite <- Hkeys). by rewrite Hkeys.
Qed.
End listing_to_disk.

(** X20.  When the repository path answers with a directory listing but
    [/models/<model_name>] exists as a regular file,
    [download_github_model] raises [NotADirectoryError] from
    [shutil.rmtree]: nothing is downloaded and the disk is unchanged. *)
Theorem download_directory_over_file
    (cfg : config) (gh : github) (depth : nat) (model_entry : metadata)
    (fs : filesystem) (repo_path model_name content : string) (its : list item) :
  PyDict.get "model_path" model_entry = Some repo_path ->
  PyDict.get "model_name" model_entry = Some model_name ->
  github_client.github_api_get cfg gh repo_path = Ok (JsonList its) ->
  fs !! os_path.join "/models" model_name = Some (File content) ->
  github_client.download_github_model cfg gh depth model_entry fs =
  (Raise (Exn NotADirectoryError (os_path.join "/models" model_name)), fs).
Proof.
  intros Hpath Hname Hinfo Hfile.
  unfold github_client.download_github_model, PyDict.getitem.
  rewrite Hpath. unfold mbind at 1, IO_bind, lift.
  unfold mbind at 1, IO_bind. rewrite Hinfo, Hname.
  unfold mbind at 1, IO_bind. unfold mbind at 1, IO_bind.
  unfold os.exists_, os.stat, shutil.rmtree. rewrite Hfile.
  by rewrite orb_true_r.
Qed.

Lemma download_directory_over_file_witness :
  github_client.download_github_model Sample.cfg_github Sample.gh_fire 3
    Sample.fire_entry
    (<["/models/fire_pytorch" := File "pickled forest"]> (<["/models" := Dir]> ∅)) =
  (Raise (Exn NotADirectoryError "/models/fire_pytorch"),
   <["/models/fire_pytorch" := File "pickled forest"]> (<["/models" := Dir]> ∅)).
Proof.
  apply (download_directory_over_file Sample.cfg_github Sample.gh_fire 3
           Sample.fire_entry _ "models/fire_pytorch" "fire_pytorch" "pickled forest"
           [Sample.file_item "weights.bin"; Sample.dir_item "config"]);
    reflexivity.
Defined.

(** X21.  The entry [list_github_models] builds for a file item whose name
    has no slash is materialised under the item's full file name, not
    under the registry key: [download_github_model] writes
    [/models/<file name>] (extension included) and returns that path when
    the download succeeds. *)
Theorem listed_file_is_downloaded_under_its_name
    (cfg : config) (gh : github) (depth : nat) (it info : item) (fs : filesystem) :
  str_contains "/" (item_name it) = false ->
  github_client.github_api_get cfg gh ("models/" ++ item_name it) = Ok (JsonDict info) ->
  item_type info = "file" ->
  let model_entry :=
    github_client.github_descriptor (fst (os_path.splitext (item_name it))) it in
  let dest_file := "/models/" ++ item_name it in
  github_client.download_github_model cfg gh depth model_entry fs =
  (match fst (github_client.download_file gh (item_download_url info) dest_file fs) with
   | Ok _ => Ok dest_file
   | Raise e => Raise e
   end,
   snd (github_client.download_file gh (item_download_url info) dest_file fs)).
Proof.
  intros Hno Hinfo Htype model_entry dest_file.
  rewrite (download_single_file_run cfg gh depth model_entry fs
             ("models/" ++ item_name it) info eq_refl Hinfo Htype).
  pose proof (basename_under_models_root (item_name it) Hno) as Hbase.
  unfold MODELS_ROOT in Hbase.
  change ("models" ++ "/" ++ item_name it) with ("models/" ++ item_name it) in Hbase.
  by rewrite Hbase.
Qed.

Lemma listed_file_is_downloaded_under_its_name_witness :
  github_client.download_github_model Sample.cfg_github Sample.gh_rf 1
    (github_client.github_descriptor "rf_model" (Sample.file_item "rf_model.pkl"))
    ∅ =
  (Ok "/models/rf_model.pkl",
   <["/models/rf_model.pkl" := File "pickled forest"]> (<["/models" := Dir]> ∅)).
Proof.
  refine (eq_trans
            (listed_file_is_downloaded_under_its_name Sample.cfg_github Sample.gh_rf 1
               (Sample.file_item "rf_model.pkl") (Sample.file_item "rf_model.pkl") ∅
               eq_refl eq_refl eq_refl) _).
  vm_compute. reflexivity.
Defined.

(** X22.  The two discovery paths name a model alike for every file, and
    for every folder whose name has no dot: from dictionaries with the
    same keys, the loop body of [list_github_models] and the loop body of
    [_initialize_from_filesystem] leave the same keys. *)
Theorem discovery_paths_agree_on_names
    (cfg : config) (disk : os_view) (it : item)
    (models : PyDict.t metadata) (r : registry) :
  PyDict.keys models = PyDict.keys (available r) ->
  rest_api.is_model_file cfg disk (item_name it) = true ->
  item_type it = "file"
  \/ (item_type it = "dir" /\ str_contains "." (item_name it) = false) ->
  PyDict.keys (github_client.list_github_models_body models it) =
  PyDict.keys
    (available (rest_api._initialize_from_filesystem_body cfg disk r (item_name it))).
Proof.
  intros Hkeys Hfile Hkind. rewrite fs_body_model by exact Hfile. simpl.
  destruct Hkind as [Ht | [Ht Hno]].
  - rewrite gh_body_file by done. by apply keys_set_value_irrelevant.
  - rewrite gh_body_dir by done.
    rewrite (splitext_without_dot (item_name it) Hno). simpl.
    by apply keys_set_value_irrelevant.
Qed.

Lemma discovery_paths_agree_on_names_witness :
  PyDict.keys
    (github_client.list_github_models_body [] (Sample.dir_item "fire_pytorch")) =
  PyDict.keys
    (available
       (rest_api._initialize_from_filesystem_body Sample.cfg
          (Sample.disk_of ["fire_pytorch"] ["fire_pytorch"])
          Sample.empty_registry "fire_pytorch")).
Proof.
  apply (discovery_paths_agree_on_names Sample.cfg
           (Sample.disk_of ["fire_pytorch"] ["fire_pytorch"])
           (Sample.dir_item "fire_pytorch") [] Sample.empty_registry).
  - reflexivity.
  - reflexivity.
  - right. split; reflexivity.
Defined.
